(** * Osu-Mania-Bot: the column reducer and the key state machine of [main.py]

    A shallow embedding of [OsuManiaBot] ([__init__], [_initialize_states],
    [_slice_columns], [_handle_press] and the body of [run]) together with the
    properties of the per-frame decision loop.

    - Python integers are [Z]; list indices produced by [enumerate] and
      [range(len(..))] are [nat].
    - A frame is the thresholded 2-D array [binary]: a list of rows, each a
      list of samples (numpy [uint8], here [Z]).
    - [self._codes] is a dict, modelled as a [gmap nat Z]; a missing key
      raises [KeyError].
    - Mutation of [self._col_states] and the calls to [key_press.PressKey] and
      [key_press.ReleaseKey] are threaded through a small state-and-exception
      monad; the calls to [key_press] are recorded, in order, in a trace. *)

From Stdlib Require Import ZArith Lia Bool.
From stdpp Require Import base option list gmap fin_maps.

Local Open Scope Z_scope.

(** ** Binary64 arithmetic behind [round(width * 0.2)] *)

Module Float64.

(** [a / d] rounded to the nearest integer, ties to the even one ([0 < d]). *)
Definition rne_div (a d : Z) : Z :=
  let q := a / d in
  let r := a mod d in
  if 2 * r <? d then q
  else if d <? 2 * r then q + 1
  else if Z.even q then q else q + 1.

(** The integer nearest to [n] that has at most 53 significant bits, ties to
    even: rounding of a binary64 significand. Scaling by a power of two
    commutes with it, so it is used on numerators over a fixed power of two
    as well. Exponent range is not modelled: the values that occur are at
    least [0.2] and below [2^64]. *)
Definition round53 (n : Z) : Z :=
  if Z.abs n <? 2 ^ 53 then n
  else let s := Z.log2 (Z.abs n) - 52 in rne_div n (2 ^ s) * 2 ^ s.

(** [float(n)] for a Python int [n]. *)
Definition of_int (n : Z) : Z := round53 n.

(** The double written [0.2] is [0x3FC999999999999A], that is
    [3602879701896397 / 2^54]. *)
Definition num_0_2 : Z := 3602879701896397.
Definition den : Z := 2 ^ 54.

(** [x * 0.2] for a double [x] of integer value: its numerator over [den]. *)
Definition mul_0_2 (x : Z) : Z := round53 (x * num_0_2).

(** Python's [round] of the double [num / den]: nearest integer, ties to
    even. *)
Definition py_round (num : Z) : Z := rne_div num den.

End Float64.

(** [round(width * 0.2)]: the int is converted to a double, multiplied by the
    double [0.2], and the product is rounded to an int. *)
Definition tolerance_of (width : Z) : Z :=
  Float64.py_round (Float64.mul_0_2 (Float64.of_int width)).

(** ** Python values and effects *)

(** The exceptions the modelled code can raise. [KeyError] carries the key. *)
Inductive exn : Type :=
  | IndexError
  | ZeroDivisionError
  | KeyError (key : nat).

Inductive result (A : Type) : Type :=
  | Ok (a : A)
  | Raise (e : exn).
Arguments Ok {A} a.
Arguments Raise {A} e.

(** A call to [key_press.PressKey(code)] or [key_press.ReleaseKey(code)]. *)
Inductive Action : Type :=
  | Press (code : Z)
  | Release (code : Z).

Definition action_code (a : Action) : Z :=
  match a with Press c | Release c => c end.

(** The instance attributes of [OsuManiaBot]. *)
Record OsuManiaBot : Type := mkBot {
  bbox : Z * Z * Z * Z;
  columns : Z;
  _col_states : list bool;
  _codes : gmap nat Z;
  _inplay : bool
}.

(** What a method call can change: the bot object and the key events sent to
    the operating system so far (oldest first). *)
Record World : Type := mkWorld {
  self : OsuManiaBot;
  keys : list Action
}.

(** State and exception monad: an exception keeps the world as it was when it
    was raised. *)
Definition M (A : Type) : Type := World -> result A * World.

Definition ret {A} (a : A) : M A := fun w => (Ok a, w).
Definition raise {A} (e : exn) : M A := fun w => (Raise e, w).
Definition bind {A B} (m : M A) (k : A -> M B) : M B :=
  fun w => match m w with
           | (Ok a, w') => k a w'
           | (Raise e, w') => (Raise e, w')
           end.

#[global] Instance M_ret : MRet M := @ret.
#[global] Instance M_bind : MBind M := fun A B k m => bind m k.

Definition lift {A} (r : result A) : M A := fun w => (r, w).

(** [self._col_states[i]] *)
Definition get_col_state (i : nat) : M bool :=
  fun w => match _col_states (self w) !! i with
           | Some b => ret b w
           | None => raise IndexError w
           end.

Definition with_col_states (b : OsuManiaBot) (st : list bool) : OsuManiaBot :=
  mkBot (bbox b) (columns b) st (_codes b) (_inplay b).

(** [self._col_states[i] = v] *)
Definition set_col_state (i : nat) (v : bool) : M unit :=
  fun w => if decide (i < length (_col_states (self w)))%nat
           then (Ok tt, mkWorld (with_col_states (self w)
                                   (<[i := v]> (_col_states (self w)))) (keys w))
           else raise IndexError w.

(** [self._codes[i]] *)
Definition get_code (i : nat) : M Z :=
  fun w => match _codes (self w) !! i with
           | Some c => ret c w
           | None => raise (KeyError i) w
           end.

Definition PressKey (code : Z) : M unit :=
  fun w => (Ok tt, mkWorld (self w) (keys w ++ [Press code])).

Definition ReleaseKey (code : Z) : M unit :=
  fun w => (Ok tt, mkWorld (self w) (keys w ++ [Release code])).

(** ** [OsuManiaBot] *)

(** The dict literal of [__init__]. *)
Definition key_codes : gmap nat Z :=
  <[0%nat := 0x02]> (<[1%nat := 0x03]> (<[2%nat := 0x04]> (<[3%nat := 0x05]>
  (<[4%nat := 0x06]> (<[5%nat := 0x07]> (<[6%nat := 0x08]> (<[7%nat := 0x09]>
  (<[8%nat := 0x10]> (<[9%nat := 0x11]> ∅))))))))).

(** [[False for _ in range(columns)]]; [range] of a negative number is
    empty. *)
Definition _initialize_states (columns : Z) : list bool :=
  replicate (Z.to_nat columns) false.

(** [OsuManiaBot(bbox, columns)]. No statement of [__init__] can raise. *)
Definition __init__ (bbox : Z * Z * Z * Z) (columns : Z) : result OsuManiaBot :=
  Ok (mkBot bbox columns (_initialize_states columns) key_codes false).

(** Python's [l[start:stop]] on a list or a 1-D array: a negative bound counts
    from the end, and both bounds are clipped to [0 .. len(l)]. *)
Definition slice_bound (len x : Z) : Z :=
  if x <? 0 then Z.max (x + len) 0 else Z.min x len.

Definition py_slice {A} (l : list A) (start stop : Z) : list A :=
  let len := Z.of_nat (length l) in
  let a := slice_bound len start in
  let b := slice_bound len stop in
  take (Z.to_nat (b - a)) (drop (Z.to_nat a) l).

(** The inner loop of [_slice_columns] for one row:
    [for i in range(len(cols)): cols[i].extend(row[i*width+tolerance : (i+1)*width-tolerance])].
    The lists of [cols] are distinct objects, and [i] is always in range. *)
Definition slice_row (width tolerance : Z) (cols : list (list Z)) (row : list Z)
  : list (list Z) :=
  foldl (fun cols i =>
           alter (fun c => c ++ py_slice row (Z.of_nat i * width + tolerance)
                                             ((Z.of_nat i + 1) * width - tolerance))
                 i cols)
        cols (seq 0 (length cols)).

(** [_slice_columns(screen)]. [screen[0]] fails on a frame without rows, [//]
    on [columns = 0]; Python's [//] is the floor division [Z.div]. *)
Definition _slice_columns (b : OsuManiaBot) (screen : list (list Z))
  : result (list (list Z)) :=
  match screen with
  | [] => Raise IndexError
  | row0 :: _ =>
      if columns b =? 0 then Raise ZeroDivisionError
      else
        let width := Z.of_nat (length row0) / columns b in
        let tolerance := tolerance_of width in
        let cols := replicate (Z.to_nat (columns b)) [] in
        Ok (foldl (slice_row width tolerance) cols screen)
  end.

(** [np.all(col)]: every element is truthy, that is non-zero; [True] on an
    empty list. *)
Definition np_all (col : list Z) : bool :=
  forallb (fun p => negb (p =? 0)) col.

(** The body of the loop of [_handle_press] for column [i]. [and] evaluates
    its right operand only when the left one is true. *)
Definition handle_column (i : nat) (col : list Z) : M unit :=
  c1 ← (if np_all col then s ← get_col_state i; mret (negb s) else mret false);
  if (c1 : bool) then
    code ← get_code i;
    PressKey code;;
    set_col_state i true
  else
    c2 ← (if negb (np_all col) then get_col_state i else mret false);
    if (c2 : bool) then
      code ← get_code i;
      ReleaseKey code;;
      set_col_state i false
    else mret tt.

(** [for i, col in enumerate(cols)], from index [i] on. *)
Fixpoint handle_press_from (i : nat) (cols : list (list Z)) : M unit :=
  match cols with
  | [] => mret tt
  | col :: rest => handle_column i col;; handle_press_from (S i) rest
  end.

Definition _handle_press (cols : list (list Z)) : M unit :=
  handle_press_from 0 cols.

Definition set_inplay (v : bool) : M unit :=
  fun w => (Ok tt, mkWorld (mkBot (bbox (self w)) (columns (self w))
                              (_col_states (self w)) (_codes (self w)) v)
                           (keys w)).

(** One iteration of the loop of [run] on the thresholded frame [binary]. *)
Definition run_frame (binary : list (list Z)) : M unit :=
  cols ← (fun w => lift (_slice_columns (self w) binary) w);
  _handle_press cols.

(** [run] on the frames captured until the quit key is seen. Capture,
    grayscale conversion and thresholding are external; an exception ends the
    loop. *)
Fixpoint run_frames (frames : list (list (list Z))) : M unit :=
  match frames with
  | [] => mret tt
  | binary :: rest => run_frame binary;; run_frames rest
  end.

Definition run (frames : list (list (list Z))) : M unit :=
  set_inplay true;; run_frames frames.

(** The two bounding boxes of the script at the end of [main.py]. *)
Definition bbox4 : Z * Z * Z * Z := (250, 574, 510, 575).
Definition bbox7 : Z * Z * Z * Z := (225, 574, 575, 575).

(** ** Vocabulary of the properties *)

(** The signals the reducer hands to the state machine. *)
Definition signals (cols : list (list Z)) : list bool := np_all <$> cols.

(** The two levels of a thresholded frame ([cv2.threshold(gray, 40, 255, ..)]). *)
Definition on_level : Z := 255.
Definition off_level : Z := 0.

Definition binary_frame (screen : list (list Z)) : Prop :=
  forall row p, row ∈ screen -> p ∈ row -> p = on_level \/ p = off_level.

(** All rows have [frameWidth] samples. *)
Definition frame_width (screen : list (list Z)) (frameWidth : nat) : Prop :=
  forall row, row ∈ screen -> length row = frameWidth.

(** The samples of [row] at the column indices [lo], .., [hi - 1]. *)
Definition samples (lo hi : Z) (row : list Z) : list Z :=
  take (Z.to_nat (hi - lo)) (drop (Z.to_nat lo) row).

(** The transition rule in the words of the specification: the actions for
    one column. *)
Definition edge_actions (signal held : bool) (code : Z) : list Action :=
  if signal && negb held then [Press code]
  else if negb signal && held then [Release code]
  else [].

(** The key events of a trace that carry the code [code]. *)
Definition column_actions (code : Z) (tr : list Action) : list Action :=
  filter (fun a => action_code a = code) tr.

(** The key events that belong to column [i]: those that carry its key code.
    A column without a key code has none. *)
Definition column_events (bindings : gmap nat Z) (i : nat) (tr : list Action)
  : list Action :=
  match bindings !! i with
  | Some c => column_actions c tr
  | None => []
  end.

(** The actions of one call, column by column from index [i] on, by the
    transition rule. *)
Fixpoint update_actions (bindings : gmap nat Z) (i : nat) (sigs held : list bool)
  : list (list Action) :=
  match sigs, held with
  | s :: sigs', h :: held' =>
      match bindings !! i with
      | Some c => edge_actions s h c
      | None => []
      end :: update_actions bindings (S i) sigs' held'
  | _, _ => []
  end.

(** What one call does to a column with key code [code]: the events it adds
    and the state it leaves, given the column's pixels and state if the loop
    gets to it. *)
Definition column_effect (col : option (list Z)) (held : option bool) (code : Z)
  : list Action * option bool :=
  match col, held with
  | Some col, Some h => (edge_actions (np_all col) h code, Some (np_all col))
  | _, _ => ([], held)
  end.

(** Replays the events of one key from the state [held]: a [Press] is allowed
    only when the key is not held, a [Release] only when it is. Returns the
    state after the last event, or [None] when some event was not allowed. *)
Fixpoint alternates (held : bool) (tr : list Action) : option bool :=
  match tr with
  | [] => Some held
  | Press _ :: tr' => if held then None else alternates true tr'
  | Release _ :: tr' => if held then alternates false tr' else None
  end.

(** The events of every column replay from "not held" to the state the bot
    holds for the column. *)
Definition consistent (w : World) : Prop :=
  _codes (self w) = key_codes /\
  forall i : nat,
    alternates false (column_events key_codes i (keys w))
    = Some (default false (_col_states (self w) !! i)).

(** As many calls of [_handle_press] as [inputs] has entries, one after the
    other; an exception ends the sequence. *)
Fixpoint handle_presses (inputs : list (list (list Z))) : M unit :=
  match inputs with
  | [] => mret tt
  | cols :: rest => _handle_press cols;; handle_presses rest
  end.

(** [n] calls of [_handle_press] on the same columns. *)
Definition repeat_handle_press (n : nat) (cols : list (list Z)) : M unit :=
  handle_presses (replicate n cols).

(** The world right after construction: no key event sent yet. *)
Definition fresh_world (b : OsuManiaBot) : World := mkWorld b [].

(** ** Facts about the rounding *)

Section Rounding.
Import Float64.

Lemma rne_div_error (a d : Z) :
  0 < d -> 2 * Z.abs (rne_div a d * d - a) <= d.
Proof.
  intros Hd. unfold rne_div.
  pose proof (Z.div_mod a d ltac:(lia)) as Hdm.
  pose proof (Z.mod_pos_bound a d Hd) as Hr.
  destruct (Z.ltb_spec (2 * (a mod d)) d); [lia|].
  destruct (Z.ltb_spec d (2 * (a mod d))); [lia|].
  destruct (Z.even (a / d)); lia.
Qed.

Lemma rne_div_nonneg (a d : Z) : 0 <= a -> 0 < d -> 0 <= rne_div a d.
Proof.
  intros Ha Hd. unfold rne_div.
  pose proof (Z.div_pos a d Ha Hd).
  repeat case_match; lia.
Qed.

Lemma round53_error (n : Z) :
  0 <= n -> 0 <= round53 n /\ 2 ^ 53 * Z.abs (round53 n - n) <= n.
Proof.
  intros Hn. unfold round53. rewrite (Z.abs_eq n) by lia.
  destruct (Z.ltb_spec n (2 ^ 53)) as [Hlt|Hge]; [lia|].
  assert (Hpos : 0 < n) by lia.
  pose proof (Z.log2_spec n Hpos) as [Hlo _].
  assert (Hlog : 53 <= Z.log2 n) by (apply Z.log2_le_pow2; lia).
  set (s := Z.log2 n - 52) in *.
  assert (Hs : 1 <= s) by lia.
  assert (Hp : 0 < 2 ^ s) by (apply Z.pow_pos_nonneg; lia).
  replace (Z.log2 n) with (s + 52) in Hlo by lia.
  rewrite Z.pow_add_r in Hlo by lia.
  pose proof (rne_div_error n (2 ^ s) Hp) as He.
  pose proof (rne_div_nonneg n (2 ^ s) Hn Hp) as Hq.
  split; [nia|].
  change (2 ^ 53) with (2 * 2 ^ 52). change (2 ^ 52) with 4503599627370496 in *.
  lia.
Qed.

(** The tolerance is never negative. *)
Lemma tolerance_nonneg (width : Z) : 0 <= width -> 0 <= tolerance_of width.
Proof.
  intros Hw. unfold tolerance_of, py_round, mul_0_2, of_int.
  destruct (round53_error width Hw) as [H1 _].
  destruct (round53_error (round53 width * num_0_2)) as [H2 _];
    [unfold num_0_2; lia|].
  apply rne_div_nonneg; [done|]. by compute.
Qed.

(** Twice the tolerance stays below a positive width: a band of positive
    width keeps at least one sample. *)
Lemma tolerance_twice_lt (width : Z) : 1 <= width -> 2 * tolerance_of width < width.
Proof.
  intros Hw.
  destruct (Z.eq_dec width 1) as [->|Hne]; [by compute|].
  unfold tolerance_of, py_round, mul_0_2, of_int.
  destruct (round53_error width ltac:(lia)) as [H1 E1].
  destruct (round53_error (round53 width * num_0_2)) as [H2 E2];
    [unfold num_0_2; lia|].
  pose proof (rne_div_error (round53 (round53 width * num_0_2)) den
                ltac:(by compute)) as E3.
  unfold num_0_2, den in *.
  change (2 ^ 54) with 18014398509481984 in *.
  change (2 ^ 53) with 9007199254740992 in *.
  lia.
Qed.

(** Below [2^50] the tolerance is the integer nearest to [width / 5]. *)
Lemma tolerance_nearest (width : Z) :
  0 <= width < 2 ^ 50 -> tolerance_of width = (width + 2) / 5.
Proof.
  intros Hw.
  unfold tolerance_of, py_round, mul_0_2, of_int.
  assert (E0 : round53 width = width).
  { unfold round53. destruct (Z.ltb_spec (Z.abs width) (2 ^ 53)); [done|].
    change (2 ^ 50) with 1125899906842624 in *.
    change (2 ^ 53) with 9007199254740992 in *. lia. }
  rewrite E0.
  destruct (round53_error (width * num_0_2)) as [H2 E2];
    [unfold num_0_2; lia|].
  pose proof (rne_div_error (round53 (width * num_0_2)) den
                ltac:(by compute)) as E3.
  pose proof (Z.div_mod (width + 2) 5 ltac:(lia)) as Hdm.
  pose proof (Z.mod_pos_bound (width + 2) 5 ltac:(lia)) as Hr.
  unfold num_0_2, den in *.
  change (2 ^ 54) with 18014398509481984 in *.
  change (2 ^ 53) with 9007199254740992 in *.
  change (2 ^ 50) with 1125899906842624 in *.
  lia.
Qed.

End Rounding.

(** ** The column reducer *)

Section Reducer.

Lemma foldl_alter_seq {A} (f : nat -> A -> A) (n : nat) (l : list A) (i : nat) :
  foldl (fun l i => alter (f i) i l) l (seq 0 n) !! i
  = if decide (i < n)%nat then f i <$> l !! i else l !! i.
Proof.
  induction n as [|n IH]; [done|].
  rewrite seq_S, foldl_app. simpl.
  destruct (decide (i = n)) as [->|Hne].
  - rewrite list_lookup_alter_eq, IH.
    rewrite decide_False by lia. by rewrite decide_True by lia.
  - rewrite list_lookup_alter_ne by done. rewrite IH.
    repeat case_decide; done || lia.
Qed.

Lemma slice_row_lookup (width tolerance : Z) (cols : list (list Z)) (row : list Z)
      (i : nat) :
  slice_row width tolerance cols row !! i
  = (fun c => c ++ py_slice row (Z.of_nat i * width + tolerance)
                                ((Z.of_nat i + 1) * width - tolerance))
      <$> cols !! i.
Proof.
  unfold slice_row.
  rewrite (foldl_alter_seq
             (fun i c => c ++ py_slice row (Z.of_nat i * width + tolerance)
                                           ((Z.of_nat i + 1) * width - tolerance))).
  case_decide as Hi; [done|].
  rewrite (lookup_ge_None_2 cols i) by lia. done.
Qed.

Lemma slice_rows_lookup (width tolerance : Z) (screen : list (list Z))
      (cols : list (list Z)) (i : nat) :
  foldl (slice_row width tolerance) cols screen !! i
  = (fun c => c ++ concat ((fun row => py_slice row (Z.of_nat i * width + tolerance)
                                          ((Z.of_nat i + 1) * width - tolerance))
                           <$> screen))
      <$> cols !! i.
Proof.
  revert cols. induction screen as [|row screen IH]; intros cols; simpl.
  - destruct (cols !! i); simpl; [|done]. by rewrite app_nil_r.
  - rewrite IH, slice_row_lookup.
    destruct (cols !! i); simpl; [|done]. by rewrite <- app_assoc.
Qed.

Lemma slice_row_length (width tolerance : Z) (cols : list (list Z)) (row : list Z) :
  length (slice_row width tolerance cols row) = length cols.
Proof.
  unfold slice_row. generalize (seq 0 (length cols)) as ks.
  intros ks. revert cols.
  induction ks as [|k ks IH]; intros cols; simpl; [done|].
  by rewrite IH, length_alter.
Qed.

Lemma slice_rows_length (width tolerance : Z) (screen : list (list Z))
      (cols : list (list Z)) :
  length (foldl (slice_row width tolerance) cols screen) = length cols.
Proof.
  revert cols. induction screen as [|row screen IH]; intros cols; simpl; [done|].
  by rewrite IH, slice_row_length.
Qed.

(** A slice whose bounds lie inside the row holds the samples between them. *)
Lemma py_slice_samples (row : list Z) (lo hi : Z) :
  0 <= lo -> 0 <= hi <= Z.of_nat (length row) ->
  py_slice row lo hi = samples lo hi row.
Proof.
  intros Hlo Hhi. unfold py_slice, samples, slice_bound.
  destruct (Z.ltb_spec lo 0); [lia|]. destruct (Z.ltb_spec hi 0); [lia|].
  rewrite (Z.min_l hi) by lia.
  destruct (Z.le_gt_cases lo (Z.of_nat (length row))) as [Hle|Hgt].
  - by rewrite Z.min_l by lia.
  - rewrite Z.min_r by lia.
    replace (Z.to_nat (hi - Z.of_nat (length row))) with 0%nat by lia.
    by replace (Z.to_nat (hi - lo)) with 0%nat by lia.
Qed.

Lemma samples_lookup (row : list Z) (lo hi : Z) (j : nat) :
  0 <= lo ->
  samples lo hi row !! j
  = if decide (Z.of_nat j < hi - lo) then row !! Z.to_nat (lo + Z.of_nat j) else None.
Proof.
  intros Hlo. unfold samples. case_decide as Hj.
  - rewrite lookup_take_lt by lia. rewrite lookup_drop. f_equal. lia.
  - apply lookup_take_ge. lia.
Qed.

(** The bounds of band [i] lie inside a row of [frameWidth] samples. *)
Lemma band_bounds (columns : Z) (frameWidth : nat) (i : nat) :
  1 <= columns -> Z.of_nat i < columns ->
  let width := Z.of_nat frameWidth / columns in
  let tolerance := tolerance_of width in
  0 <= Z.of_nat i * width + tolerance /\
  0 <= (Z.of_nat i + 1) * width - tolerance <= Z.of_nat frameWidth.
Proof.
  intros Hc Hi width tolerance.
  assert (Hw : 0 <= width) by (apply Z.div_pos; lia).
  pose proof (tolerance_nonneg width Hw) as Ht.
  pose proof (Z.mul_div_le (Z.of_nat frameWidth) columns ltac:(lia)) as Hm.
  fold width in Hm. fold tolerance in Ht.
  assert (Htw : tolerance <= width).
  { destruct (Z.eq_dec width 0) as [E|E].
    - subst tolerance. rewrite E. by compute.
    - pose proof (tolerance_twice_lt width ltac:(lia)). subst tolerance. lia. }
  nia.
Qed.

(** What [_slice_columns] returns on a frame with at least one row and rows
    of one length: column [i] is the row-major concatenation of the samples
    of its band. *)
Lemma slice_columns_spec (b : OsuManiaBot) (row0 : list Z) (rest : list (list Z))
      (frameWidth : nat) :
  frame_width (row0 :: rest) frameWidth -> 1 <= columns b ->
  let width := Z.of_nat frameWidth / columns b in
  let tolerance := tolerance_of width in
  exists cols,
    _slice_columns b (row0 :: rest) = Ok cols /\
    Z.of_nat (length cols) = columns b /\
    forall i : nat, Z.of_nat i < columns b ->
      cols !! i = Some (concat (samples (Z.of_nat i * width + tolerance)
                                        ((Z.of_nat i + 1) * width - tolerance)
                                <$> row0 :: rest)).
Proof.
  intros Hfw Hc width tolerance.
  assert (Hrow0 : length row0 = frameWidth) by (apply Hfw; left).
  unfold _slice_columns.
  destruct (Z.eqb_spec (columns b) 0) as [E|_]; [lia|].
  rewrite Hrow0. fold width. fold tolerance.
  eexists; split; [done|]. split.
  - rewrite slice_rows_length, length_replicate. lia.
  - intros i Hi. rewrite slice_rows_lookup.
    rewrite lookup_replicate_2 by lia. simpl. do 2 f_equal.
    + pose proof (band_bounds (columns b) frameWidth i Hc Hi) as [? ?].
      apply py_slice_samples; [done|]. by rewrite Hrow0.
    + f_equal. apply list_fmap_ext. intros k row Hrow%list_elem_of_lookup_2.
      pose proof (band_bounds (columns b) frameWidth i Hc Hi) as [? ?].
      apply py_slice_samples; [done|].
      rewrite (Hfw row) by (by right). done.
Qed.

Lemma np_all_true (col : list Z) :
  np_all col = true <-> forall p, p ∈ col -> p <> 0.
Proof.
  unfold np_all. induction col as [|q col IH]; simpl.
  - split; [|done]. intros _ p Hp. by apply not_elem_of_nil in Hp.
  - rewrite andb_true_iff, IH, negb_true_iff, Z.eqb_neq. split.
    + intros [Hq Hcol] p [->|Hp]%elem_of_cons; auto.
    + intros H. split; [apply H; left|intros p Hp; apply H; by right].
Qed.

Lemma elem_of_concat_fmap {A B} (f : A -> list B) (l : list A) (y : B) :
  y ∈ concat (f <$> l) <-> exists x, x ∈ l /\ y ∈ f x.
Proof.
  induction l as [|x l IH]; simpl.
  - split; [by intros ?%not_elem_of_nil|]. by intros (x & ?%not_elem_of_nil & _).
  - rewrite elem_of_app, IH. split.
    + intros [Hy|(x' & Hx' & Hy)]; [exists x; split; [left|done]|].
      exists x'. split; [by right|done].
    + intros (x' & [->|Hx']%elem_of_cons & Hy); [by left|right; eauto].
Qed.

Lemma elem_of_samples (row : list Z) (lo hi : Z) (p : Z) :
  0 <= lo ->
  p ∈ samples lo hi row
  <-> exists k : nat, lo <= Z.of_nat k < hi /\ row !! k = Some p.
Proof.
  intros Hlo. rewrite list_elem_of_lookup. split.
  - intros (j & Hj). rewrite samples_lookup in Hj by done.
    case_decide; [|done].
    exists (Z.to_nat (lo + Z.of_nat j)). split; [lia|done].
  - intros (k & Hk & Hp). exists (Z.to_nat (Z.of_nat k - lo)).
    rewrite samples_lookup by done. rewrite decide_True by lia.
    rewrite <- Hp. f_equal. lia.
Qed.

End Reducer.

(** C3: on a frame with rows of one length [frameWidth >= columns >= 1] the
    reducer works with [width = frameWidth // columns] and
    [tolerance = round(width * 0.2)], and column [i] holds, row after row, the
    samples at the column indices [i*width + tolerance] up to
    [(i+1)*width - tolerance] (excluded). For widths below [2^50] that
    tolerance is the integer nearest to [width / 5]. For [frameWidth = 100]
    and [columns = 4] the width is 25, the tolerance 5, and column 0 holds the
    samples 5 to 19 of every row. *)
Theorem slice_columns_band_boundaries (b : OsuManiaBot) (row0 : list Z)
        (rest : list (list Z)) (frameWidth : nat) :
  frame_width (row0 :: rest) frameWidth ->
  1 <= columns b <= Z.of_nat frameWidth ->
  let width := Z.of_nat frameWidth / columns b in
  let tolerance := tolerance_of width in
  exists cols,
    _slice_columns b (row0 :: rest) = Ok cols /\
    (forall i : nat, Z.of_nat i < columns b ->
       cols !! i = Some (concat (samples (Z.of_nat i * width + tolerance)
                                         ((Z.of_nat i + 1) * width - tolerance)
                                 <$> row0 :: rest))) /\
    (Z.of_nat frameWidth < 2 ^ 50 -> tolerance = (width + 2) / 5) /\
    (frameWidth = 100%nat -> columns b = 4 ->
       width = 25 /\ tolerance = 5 /\
       cols !! 0%nat = Some (concat (samples 5 20 <$> row0 :: rest))).
Proof.
  intros Hfw Hc width tolerance.
  destruct (slice_columns_spec b row0 rest frameWidth Hfw ltac:(lia))
    as (cols & Hcols & _ & Hband).
  fold width in Hband. fold tolerance in Hband.
  exists cols. split; [done|]. split; [done|]. split.
  - intros Hlt. apply tolerance_nearest.
    assert (0 <= width) by (apply Z.div_pos; lia).
    assert (width <= Z.of_nat frameWidth); [|lia].
    apply Z.div_le_upper_bound; nia.
  - intros Hfw100 Hc4.
    assert (Ew : width = 25) by (subst width; rewrite Hfw100, Hc4; done).
    assert (Et : tolerance = 5) by (subst tolerance; rewrite Ew; done).
    split; [done|]. split; [done|].
    rewrite (Hband 0%nat) by lia. rewrite Ew, Et. done.
Qed.

Lemma slice_columns_band_boundaries_witness :
  exists cols,
    _slice_columns (mkBot bbox4 4 [false; false; false; false] key_codes false)
                   [replicate 100 255; replicate 100 0] = Ok cols /\
    cols !! 0%nat = Some (replicate 15 255 ++ replicate 15 0).
Proof.
  destruct (slice_columns_band_boundaries
              (mkBot bbox4 4 [false; false; false; false] key_codes false)
              (replicate 100 255) [replicate 100 0] 100)
    as (cols & Hcols & _ & _ & H100).
  - intros row Hrow. apply elem_of_cons in Hrow as [->|Hrow]; [done|].
    apply list_elem_of_singleton in Hrow as ->. done.
  - simpl. lia.
  - exists cols. split; [done|].
    destruct (H100 eq_refl eq_refl) as (_ & _ & H0). exact H0.
Defined.

(** C4: on a thresholded frame (every sample 255 or 0) with rows of one
    length, the signal of column [i] is true exactly when every sample of its
    band, in every row, is 255. *)
Theorem column_signal_strict_and (b : OsuManiaBot) (row0 : list Z)
        (rest : list (list Z)) (frameWidth : nat) (i : nat) :
  frame_width (row0 :: rest) frameWidth ->
  binary_frame (row0 :: rest) ->
  Z.of_nat i < columns b ->
  let width := Z.of_nat frameWidth / columns b in
  let tolerance := tolerance_of width in
  exists cols signal,
    _slice_columns b (row0 :: rest) = Ok cols /\
    signals cols !! i = Some signal /\
    (signal = true <->
     forall (row : list Z) (k : nat),
       row ∈ row0 :: rest ->
       Z.of_nat i * width + tolerance <= Z.of_nat k
         < (Z.of_nat i + 1) * width - tolerance ->
       row !! k = Some on_level).
Proof.
  intros Hfw Hbin Hi width tolerance.
  destruct (slice_columns_spec b row0 rest frameWidth Hfw ltac:(lia))
    as (cols & Hcols & _ & Hband).
  specialize (Hband i Hi). fold width in Hband. fold tolerance in Hband.
  pose proof (band_bounds (columns b) frameWidth i ltac:(lia) Hi) as [Hlo Hhi].
  fold width in Hlo, Hhi. fold tolerance in Hlo, Hhi.
  eexists cols, _. split; [done|]. split.
  { unfold signals. rewrite list_lookup_fmap, Hband. done. }
  rewrite np_all_true. split.
  - intros Hall row k Hrow Hk.
    destruct (lookup_lt_is_Some_2 row k) as [p Hp].
    { rewrite (Hfw row Hrow). lia. }
    assert (Hin : p ∈ row) by (by eapply list_elem_of_lookup_2).
    assert (Hne : p <> 0).
    { apply Hall. apply elem_of_concat_fmap. exists row. split; [done|].
      apply elem_of_samples; [done|]. eauto. }
    destruct (Hbin row p Hrow Hin) as [->| ->]; [done|]. by destruct Hne.
  - intros Hlit p (row & Hrow & Hp)%elem_of_concat_fmap.
    apply elem_of_samples in Hp as (k & Hk & Hp); [|done].
    rewrite (Hlit row k Hrow Hk) in Hp. injection Hp as <-. done.
Qed.

Lemma column_signal_strict_and_witness :
  exists cols signal,
    _slice_columns (mkBot bbox4 2 [false; false] key_codes false)
                   [[0; 255; 255; 255; 0; 0; 255; 0; 255; 0]] = Ok cols /\
    signals cols !! 0%nat = Some signal /\
    (signal = true <->
     forall (row : list Z) (k : nat),
       row ∈ [[0; 255; 255; 255; 0; 0; 255; 0; 255; 0]] ->
       1 <= Z.of_nat k < 4 -> row !! k = Some on_level).
Proof.
  apply (column_signal_strict_and
           (mkBot bbox4 2 [false; false] key_codes false)
           [0; 255; 255; 255; 0; 0; 255; 0; 255; 0] [] 10 0).
  - intros row Hrow. apply list_elem_of_singleton in Hrow as ->. done.
  - intros row p Hrow Hp. apply list_elem_of_singleton in Hrow as ->.
    unfold on_level, off_level.
    repeat (apply elem_of_cons in Hp as [->|Hp]; [lia|]).
    by apply not_elem_of_nil in Hp.
  - simpl. lia.
Defined.

(** C5: when twice the tolerance reaches the width, the band of every column
    is empty; the reducer still returns, column [i] is the empty list, and its
    signal is true. *)
Theorem empty_band_vacuously_lit (b : OsuManiaBot) (row0 : list Z)
        (rest : list (list Z)) (i : nat) :
  Z.of_nat i < columns b ->
  let width := Z.of_nat (length row0) / columns b in
  width <= 2 * tolerance_of width ->
  exists cols,
    _slice_columns b (row0 :: rest) = Ok cols /\
    cols !! i = Some [] /\
    signals cols !! i = Some true.
Proof.
  intros Hi width Hempty.
  assert (Hw : 0 <= width) by (apply Z.div_pos; lia).
  assert (Ew : width = 0).
  { destruct (Z.eq_dec width 0) as [E|E]; [done|].
    pose proof (tolerance_twice_lt width ltac:(lia)). lia. }
  unfold _slice_columns.
  destruct (Z.eqb_spec (columns b) 0) as [E|_]; [lia|].
  fold width. rewrite Ew. change (tolerance_of 0) with 0.
  eexists. split; [done|].
  assert (Hcol : foldl (slice_row 0 0) (replicate (Z.to_nat (columns b)) [])
                   (row0 :: rest) !! i = Some []).
  { rewrite slice_rows_lookup. rewrite lookup_replicate_2 by lia.
    simpl. f_equal.
    replace (Z.of_nat i * 0 + 0) with 0 by lia.
    replace ((Z.of_nat i + 1) * 0 - 0) with 0 by lia.
    assert (Hnil : forall row : list Z, py_slice row 0 0 = []).
    { intros row. unfold py_slice, slice_bound. simpl.
      rewrite Z.min_l by lia. done. }
    rewrite Hnil. simpl.
    induction rest as [|row rest' IH]; simpl; [done|]. by rewrite Hnil. }
  split; [done|].
  unfold signals. rewrite list_lookup_fmap, Hcol. done.
Qed.

Lemma empty_band_vacuously_lit_witness :
  exists cols,
    _slice_columns (mkBot bbox4 4 [false; false; false; false] key_codes false)
                   [[0; 0; 0]; [0; 255; 0]] = Ok cols /\
    cols !! 2%nat = Some [] /\
    signals cols !! 2%nat = Some true.
Proof.
  apply (empty_band_vacuously_lit
           (mkBot bbox4 4 [false; false; false; false] key_codes false)
           [0; 0; 0] [[0; 255; 0]] 2).
  - reflexivity.
  - by vm_compute.
Defined.

(** C6: for [columns >= 1] and a frame with at least one row the reducer
    returns exactly [columns] columns, hence [columns] signals. *)
Theorem slice_columns_signal_count (b : OsuManiaBot) (row0 : list Z)
        (rest : list (list Z)) (frameWidth : nat) :
  frame_width (row0 :: rest) frameWidth ->
  1 <= columns b <= Z.of_nat frameWidth ->
  exists cols,
    _slice_columns b (row0 :: rest) = Ok cols /\
    Z.of_nat (length (signals cols)) = columns b.
Proof.
  intros Hfw Hc.
  destruct (slice_columns_spec b row0 rest frameWidth Hfw ltac:(lia))
    as (cols & Hcols & Hlen & _).
  exists cols. split; [done|].
  unfold signals. by rewrite length_fmap.
Qed.

Lemma slice_columns_signal_count_witness :
  exists cols,
    _slice_columns (mkBot bbox7 7 (replicate 7 false) key_codes false)
                   [replicate 350 255] = Ok cols /\
    Z.of_nat (length (signals cols)) = 7.
Proof.
  apply (slice_columns_signal_count
           (mkBot bbox7 7 (replicate 7 false) key_codes false)
           (replicate 350 255) [] 350).
  - intros row Hrow. apply list_elem_of_singleton in Hrow as ->. done.
  - simpl. lia.
Defined.

(** C8: construction with [columns = 0] succeeds with an empty list of column
    states; on every frame with at least one row [_slice_columns] then raises
    [ZeroDivisionError], and on no frame at all does it return a list. *)
Theorem zero_columns_division_error (bbox : Z * Z * Z * Z) :
  exists b,
    __init__ bbox 0 = Ok b /\
    _col_states b = [] /\
    (forall (row0 : list Z) (rest : list (list Z)),
       _slice_columns b (row0 :: rest) = Raise ZeroDivisionError) /\
    (forall screen : list (list Z), exists e, _slice_columns b screen = Raise e).
Proof.
  eexists. split; [done|]. split; [done|]. split.
  - done.
  - intros [|row0 rest]; eexists; done.
Qed.

(** ** The key state machine *)

Section StateMachine.

Lemma edge_actions_same (s : bool) (c : Z) : edge_actions s s c = [].
Proof. by destruct s. Qed.

Lemma with_col_states_id (w : World) :
  mkWorld (with_col_states (self w) (_col_states (self w))) (keys w ++ []) = w.
Proof. destruct w as [[? ? ? ? ?] ?]. unfold with_col_states. simpl. by rewrite app_nil_r. Qed.

(** One column: a column outside [_col_states] raises [IndexError]; a
    column whose signal equals its state is left alone; any other column
    needs its key code. *)
Lemma handle_column_spec (i : nat) (col : list Z) (w : World) :
  handle_column i col w
  = match _col_states (self w) !! i with
    | None => (Raise IndexError, w)
    | Some held =>
        if decide (np_all col = held) then (Ok tt, w)
        else match _codes (self w) !! i with
             | None => (Raise (KeyError i), w)
             | Some c =>
                 (Ok tt,
                  mkWorld (with_col_states (self w)
                             (<[i := np_all col]> (_col_states (self w))))
                          (keys w ++ edge_actions (np_all col) held c))
             end
    end.
Proof.
  unfold handle_column, mbind, M_bind, bind, mret, M_ret, ret,
    get_col_state, get_code, PressKey, ReleaseKey, set_col_state.
  destruct (np_all col) eqn:Hsig; simpl;
    destruct (_col_states (self w) !! i) as [held|] eqn:Hst; simpl; try done;
    pose proof (lookup_lt_Some _ _ _ Hst) as Hlt;
    destruct held; simpl; try done;
    destruct (_codes (self w) !! i) as [c|]; simpl; try done;
    by rewrite decide_True by done.
Qed.

(** With a key code at hand, the step has one closed form. *)
Lemma handle_column_coded (i : nat) (col : list Z) (w : World) (held : bool) (c : Z) :
  _col_states (self w) !! i = Some held ->
  _codes (self w) !! i = Some c ->
  handle_column i col w
  = (Ok tt,
     mkWorld (with_col_states (self w) (<[i := np_all col]> (_col_states (self w))))
             (keys w ++ edge_actions (np_all col) held c)).
Proof.
  intros Hst Hc. rewrite handle_column_spec, Hst, Hc.
  case_decide as E; [|done].
  rewrite E, edge_actions_same, list_insert_id by done.
  by rewrite with_col_states_id.
Qed.

Lemma handle_column_steady (i : nat) (col : list Z) (w : World) :
  _col_states (self w) !! i = Some (np_all col) ->
  handle_column i col w = (Ok tt, w).
Proof.
  intros Hst. rewrite handle_column_spec, Hst. by rewrite decide_True.
Qed.

Lemma handle_press_from_cons (i : nat) (col : list Z) (rest : list (list Z))
      (w : World) :
  handle_press_from i (col :: rest) w
  = match handle_column i col w with
    | (Ok _, w') => handle_press_from (S i) rest w'
    | (Raise e, w') => (Raise e, w')
    end.
Proof. done. Qed.

Lemma handle_press_from_app (i : nat) (cols1 cols2 : list (list Z)) (w : World) :
  handle_press_from i (cols1 ++ cols2) w
  = match handle_press_from i cols1 w with
    | (Ok _, w') => handle_press_from (i + length cols1) cols2 w'
    | (Raise e, w') => (Raise e, w')
    end.
Proof.
  revert i w. induction cols1 as [|col cols1 IH]; intros i w.
  - simpl. by rewrite Nat.add_0_r.
  - rewrite <- app_comm_cons, !handle_press_from_cons.
    destruct (handle_column i col w) as [[[]|e] w1]; [|done].
    rewrite IH. simpl length. by rewrite Nat.add_succ_r.
Qed.

Lemma with_col_states_twice (b : OsuManiaBot) (st1 st2 : list bool) :
  with_col_states (with_col_states b st1) st2 = with_col_states b st2.
Proof. done. Qed.

(** A column that needs no key code it lacks is handled without error. *)
Lemma handle_column_ok (i : nat) (col : list Z) (w : World) (held : bool) :
  _col_states (self w) !! i = Some held ->
  (np_all col <> held -> is_Some (_codes (self w) !! i)) ->
  handle_column i col w
  = (Ok tt,
     mkWorld (with_col_states (self w) (<[i := np_all col]> (_col_states (self w))))
             (keys w ++ match _codes (self w) !! i with
                        | Some c => edge_actions (np_all col) held c
                        | None => []
                        end)).
Proof.
  intros Hst Hcode.
  destruct (_codes (self w) !! i) as [c|] eqn:Hc.
  - by apply handle_column_coded.
  - rewrite handle_column_spec, Hst, Hc.
    case_decide as E; [|by destruct (Hcode E)].
    rewrite E, list_insert_id by done. by rewrite with_col_states_id.
Qed.

(** A whole call in which every column that changes state has a key code:
    no exception, the states of the handled columns become the signals, and
    the trace grows by the actions of the transition rule. *)
Lemma handle_press_from_ok (cols : list (list Z)) (k : nat) (w : World) :
  (k + length cols <= length (_col_states (self w)))%nat ->
  (forall (j : nat) col held,
     cols !! j = Some col -> _col_states (self w) !! (k + j)%nat = Some held ->
     np_all col <> held -> is_Some (_codes (self w) !! (k + j)%nat)) ->
  handle_press_from k cols w
  = (Ok tt,
     mkWorld (with_col_states (self w)
                (take k (_col_states (self w)) ++ signals cols
                 ++ drop (k + length cols) (_col_states (self w))))
             (keys w ++ concat (update_actions (_codes (self w)) k (signals cols)
                                  (drop k (_col_states (self w)))))).
Proof.
  revert k w. induction cols as [|col cols IH]; intros k w Hlen Hcodes.
  - simpl. rewrite Nat.add_0_r, take_drop.
    destruct (drop k (_col_states (self w))); by rewrite with_col_states_id.
  - simpl in Hlen.
    destruct (lookup_lt_is_Some_2 (_col_states (self w)) k ltac:(lia)) as [held Hst].
    rewrite handle_press_from_cons.
    rewrite (handle_column_ok k col w held Hst).
    2:{ intros Hne. specialize (Hcodes 0%nat col held).
        rewrite Nat.add_0_r in Hcodes. by apply Hcodes. }
    rewrite IH; simpl.
    + rewrite with_col_states_twice. f_equal. f_equal.
      * f_equal.
        rewrite (take_S_r _ k (np_all col))
          by (apply list_lookup_insert_eq; lia).
        rewrite take_insert_ge by lia. rewrite <- app_assoc. simpl.
        do 2 f_equal. rewrite drop_insert_lt by lia.
        by replace (S (k + length cols)) with (k + S (length cols))%nat by lia.
      * rewrite (drop_S _ held k) by done. simpl.
        rewrite drop_insert_lt by lia. by rewrite <- app_assoc.
    + rewrite length_insert. lia.
    + intros j col' held' Hcol' Hst' Hne.
      rewrite list_lookup_insert_ne in Hst' by lia.
      simpl in *. replace (S (k + j)) with (k + S j)%nat in * by lia.
      by apply (Hcodes (S j) col' held').
Qed.

Lemma update_actions_lookup (bindings : gmap nat Z) (k : nat)
      (sigs hs : list bool) (i : nat) (s h : bool) :
  sigs !! i = Some s -> hs !! i = Some h ->
  update_actions bindings k sigs hs !! i
  = Some (match bindings !! (k + i)%nat with
          | Some c => edge_actions s h c
          | None => []
          end).
Proof.
  revert k hs i. induction sigs as [|s0 sigs IH]; intros k [|h0 hs] i; try done.
  destruct i as [|i]; simpl.
  - intros [= ->] [= ->]. by rewrite Nat.add_0_r.
  - intros Hs Hh. rewrite (IH (S k) hs i) by done.
    by replace (S k + i)%nat with (k + S i)%nat by lia.
Qed.

Lemma update_actions_length (bindings : gmap nat Z) (k : nat) (sigs hs : list bool) :
  length sigs = length hs ->
  length (update_actions bindings k sigs hs) = length sigs.
Proof.
  revert k hs. induction sigs as [|s0 sigs IH]; intros k [|h0 hs]; try done.
  simpl. intros [= Hlen]. by rewrite IH.
Qed.

(** Signals equal to the states from index [k] on: nothing happens. *)
Lemma handle_press_from_steady (cols : list (list Z)) (k : nat) (w : World) :
  signals cols = drop k (_col_states (self w)) ->
  handle_press_from k cols w = (Ok tt, w).
Proof.
  revert k. induction cols as [|col cols IH]; intros k Hsig; [done|].
  simpl in Hsig.
  assert (Hst : _col_states (self w) !! k = Some (np_all col)).
  { rewrite <- (Nat.add_0_r k), <- lookup_drop, <- Hsig. done. }
  rewrite handle_press_from_cons, handle_column_steady by done.
  apply IH. rewrite (drop_S _ _ _ Hst) in Hsig. by injection Hsig.
Qed.

(** *** The key code table *)

Lemma key_codes_lookup_Some (i : nat) (c : Z) :
  key_codes !! i = Some c -> (i < 10)%nat.
Proof.
  intros Hc. destruct (decide (i < 10)%nat) as [|Hge]; [done|].
  unfold key_codes in Hc.
  rewrite !lookup_insert_ne in Hc by lia. by rewrite lookup_empty in Hc.
Qed.

Lemma key_codes_lookup_lt (i : nat) :
  (i < 10)%nat -> is_Some (key_codes !! i).
Proof.
  intros Hi. do 10 (destruct i as [|i]; [by eexists|]). lia.
Qed.

Lemma key_codes_inj (i j : nat) (c : Z) :
  key_codes !! i = Some c -> key_codes !! j = Some c -> i = j.
Proof.
  intros Hi Hj.
  pose proof (key_codes_lookup_Some i c Hi) as Hi10.
  pose proof (key_codes_lookup_Some j c Hj) as Hj10.
  do 10 (destruct i as [|i]; [
    do 10 (destruct j as [|j]; [by vm_compute in Hi, Hj; simplify_eq|]); lia|]).
  lia.
Qed.

(** *** One column across a call *)

Section OneColumn.
Context (codes : gmap nat Z).
Hypothesis codes_inj :
  forall i j c, codes !! i = Some c -> codes !! j = Some c -> i = j.
Hypothesis codes_below :
  forall i j c, codes !! i = Some c -> (j < i)%nat -> is_Some (codes !! j).

Lemma column_actions_app (c : Z) (tr1 tr2 : list Action) :
  column_actions c (tr1 ++ tr2) = column_actions c tr1 ++ column_actions c tr2.
Proof. apply filter_app. Qed.

Lemma column_actions_edge (c c' : Z) (s h : bool) :
  column_actions c (edge_actions s h c')
  = if decide (c' = c) then edge_actions s h c' else [].
Proof.
  unfold column_actions, edge_actions.
  destruct s, h; simpl; try by case_decide.
  - rewrite filter_cons. simpl. by case_decide.
  - rewrite filter_cons. simpl. by case_decide.
Qed.

(** The events of key [c] and the state of its column [i] after the loop
    has run from index [k], whether or not it ended in an exception. *)
Lemma handle_press_from_column (cols : list (list Z)) (k : nat) (w : World)
      (i : nat) (c : Z) :
  _codes (self w) = codes -> codes !! i = Some c ->
  let w' := (handle_press_from k cols w).2 in
  let eff := column_effect (if decide (k <= i)%nat then cols !! (i - k)%nat else None)
                           (_col_states (self w) !! i) c in
  column_actions c (keys w') = column_actions c (keys w) ++ eff.1 /\
  _col_states (self w') !! i = eff.2.
Proof.
  intros Hcodes Hc. revert k w Hcodes.
  induction cols as [|col cols IH]; intros k w Hcodes; cbv zeta.
  - simpl. rewrite lookup_nil. destruct (decide (k <= i)%nat); simpl;
      by rewrite app_nil_r.
  - specialize (IH (S k)). cbv zeta in IH.
    rewrite handle_press_from_cons, handle_column_spec.
    destruct (_col_states (self w) !! k) as [held|] eqn:Hst; simpl.
    2:{ (* IndexError at column k *)
        clear IH.
        destruct (decide (k <= i)%nat) as [Hki|Hki]; simpl;
          [|by rewrite app_nil_r].
        rewrite (lookup_ge_None_2 _ i)
          by (apply lookup_ge_None_1 in Hst; lia).
        destruct ((col :: cols) !! (i - k)%nat); simpl; by rewrite app_nil_r. }
    destruct (decide (np_all col = held)) as [Hsig|Hsig].
    { (* signal equal to state: no change *)
      destruct (IH w Hcodes) as [IHk IHs]. rewrite IHk, IHs. clear IH IHk IHs.
      destruct (decide (i = k)) as [->|Hik].
      - rewrite decide_False by lia. rewrite decide_True by lia.
        rewrite Nat.sub_diag. simpl. rewrite Hst, Hsig. simpl.
        by rewrite edge_actions_same.
      - destruct (decide (k <= i)%nat).
        + rewrite decide_True by lia.
          replace (i - k)%nat with (S (i - S k)) by lia. done.
        + by rewrite decide_False by lia. }
    rewrite Hcodes.
    destruct (codes !! k) as [ck|] eqn:Hck; simpl.
    2:{ (* KeyError at column k *)
        clear IH.
        destruct (decide (k <= i)%nat) as [Hki|Hki]; simpl;
          [|by rewrite app_nil_r].
        destruct (decide (i = k)) as [->|Hik]; [congruence|].
        destruct (codes_below i k c Hc ltac:(lia)) as [? ?]. congruence. }
    (* a transition of column k *)
    match goal with |- context [handle_press_from (S k) cols ?w1] =>
      destruct (IH w1 Hcodes) as [IHk IHs] end.
    rewrite IHk, IHs. clear IH IHk IHs. simpl.
    rewrite column_actions_app, column_actions_edge.
    destruct (decide (i = k)) as [->|Hik].
    + assert (ck = c) as -> by congruence.
      rewrite (decide_False (P := (S k <= k)%nat)) by lia.
      rewrite (decide_True (P := (k <= k)%nat)) by lia.
      rewrite decide_True by done.
      rewrite Nat.sub_diag. simpl. rewrite Hst. simpl.
      rewrite list_lookup_insert_eq by (by eapply lookup_lt_Some).
      by rewrite app_nil_r.
    + rewrite (decide_False (P := ck = c))
        by (intros ->; apply Hik; by eapply codes_inj).
      rewrite app_nil_r. rewrite list_lookup_insert_ne by done.
      destruct (decide (k <= i)%nat).
      * rewrite decide_True by lia.
        replace (i - k)%nat with (S (i - S k)) by lia. done.
      * by rewrite decide_False by lia.
Qed.

(** A column without a key code never changes state. *)
Lemma handle_press_from_uncoded (cols : list (list Z)) (k : nat) (w : World)
      (i : nat) :
  _codes (self w) !! i = None ->
  _col_states (self (handle_press_from k cols w).2) !! i
  = _col_states (self w) !! i.
Proof.
  revert k w. induction cols as [|col cols IH]; intros k w Hc; [done|].
  rewrite handle_press_from_cons, handle_column_spec.
  destruct (_col_states (self w) !! k) as [held|] eqn:Hst; [|done].
  case_decide as Hsig; [by apply IH|].
  destruct (_codes (self w) !! k) as [ck|] eqn:Hck; [|done].
  rewrite IH by done. simpl.
  apply list_lookup_insert_ne. congruence.
Qed.

Lemma handle_press_from_codes (cols : list (list Z)) (k : nat) (w : World) :
  _codes (self (handle_press_from k cols w).2) = _codes (self w).
Proof.
  revert k w. induction cols as [|col cols IH]; intros k w; [done|].
  rewrite handle_press_from_cons, handle_column_spec.
  destruct (_col_states (self w) !! k) as [held|] eqn:Hst; [|done].
  case_decide as Hsig; [by apply IH|].
  destruct (_codes (self w) !! k) as [ck|] eqn:Hck; [|done].
  by rewrite IH.
Qed.

End OneColumn.

End StateMachine.

(** C2, as the code has it: when the signals and the states have the same
    length and every column whose signal differs from its state has a key
    code, one call of [_handle_press] returns normally, and for every column
    [i]: with signal true and state false it emits exactly [Press(code i)] and
    sets the state to true; with signal false and state true it emits exactly
    [Release(code i)] and sets the state to false; otherwise it emits nothing
    for the column and leaves its state as it was. The trace grows by the
    actions of the columns in column order, at most one per column. *)
Theorem handle_press_transitions (cols : list (list Z)) (w : World) :
  length cols = length (_col_states (self w)) ->
  (forall (i : nat) col held,
     cols !! i = Some col -> _col_states (self w) !! i = Some held ->
     np_all col <> held -> is_Some (_codes (self w) !! i)) ->
  exists w' acts,
    _handle_press cols w = (Ok tt, w') /\
    keys w' = keys w ++ concat acts /\
    length acts = length cols /\
    length (_col_states (self w')) = length cols /\
    _codes (self w') = _codes (self w) /\
    forall (i : nat) (signal held : bool),
      signals cols !! i = Some signal ->
      _col_states (self w) !! i = Some held ->
      (signal = true /\ held = false ->
         exists code, _codes (self w) !! i = Some code /\
           acts !! i = Some [Press code] /\
           _col_states (self w') !! i = Some true) /\
      (signal = false /\ held = true ->
         exists code, _codes (self w) !! i = Some code /\
           acts !! i = Some [Release code] /\
           _col_states (self w') !! i = Some false) /\
      (signal = held ->
         acts !! i = Some [] /\ _col_states (self w') !! i = Some held).
Proof.
  intros Hlen Hcodes. unfold _handle_press.
  rewrite handle_press_from_ok; [|simpl; lia|done].
  change (0 + length cols)%nat with (length cols).
  rewrite (drop_ge _ (length cols)) by lia. rewrite app_nil_r, drop_0. simpl.
  eexists _, _. split; [done|]. simpl. split; [done|].
  assert (Hsl : length (signals cols) = length cols)
    by (unfold signals; by rewrite length_fmap).
  split; [rewrite update_actions_length; lia|].
  split; [simpl; lia|]. split; [done|].
  intros i signal held Hsig Hst.
  rewrite (update_actions_lookup _ 0 _ _ i signal held Hsig Hst). simpl.
  rewrite Hsig.
  assert (Hcode : signal <> held -> is_Some (_codes (self w) !! i)).
  { unfold signals in Hsig. rewrite list_lookup_fmap in Hsig.
    destruct (cols !! i) as [col|] eqn:Hcol; [|done].
    injection Hsig as <-. by apply Hcodes. }
  split; [|split].
  - intros [-> ->]. destruct Hcode as [code Hc]; [done|].
    exists code. by rewrite Hc.
  - intros [-> ->]. destruct Hcode as [code Hc]; [done|].
    exists code. by rewrite Hc.
  - intros ->. destruct (_codes (self w) !! i); [|done].
    by rewrite edge_actions_same.
Qed.

Lemma handle_press_transitions_witness :
  exists w' acts,
    _handle_press [[255; 255]; [0]; [0; 255]; [255]]
      (mkWorld (mkBot bbox4 4 [false; true; false; true] key_codes false) [])
    = (Ok tt, w') /\
    keys w' = concat acts /\
    acts = [[Press 0x02]; [Release 0x03]; []; []] /\
    _col_states (self w') = [true; false; false; true].
Proof.
  destruct (handle_press_transitions [[255; 255]; [0]; [0; 255]; [255]]
              (mkWorld (mkBot bbox4 4 [false; true; false; true] key_codes false) []))
    as (w' & acts & Hrun & Hkeys & Hlen & Hst & _ & Hcol).
  - reflexivity.
  - intros i col held Hi _ _. apply key_codes_lookup_lt.
    apply lookup_lt_Some in Hi. simpl in Hi. lia.
  - exists w', acts. split; [exact Hrun|]. split; [exact Hkeys|].
    vm_compute in Hrun. injection Hrun as <-. simpl in *.
    split; [|reflexivity].
    destruct (Hcol 0%nat true false eq_refl eq_refl) as (H0 & _ & _).
    destruct (H0 (conj eq_refl eq_refl)) as (c0 & E0 & A0 & _).
    destruct (Hcol 1%nat false true eq_refl eq_refl) as (_ & H1 & _).
    destruct (H1 (conj eq_refl eq_refl)) as (c1 & E1 & A1 & _).
    destruct (Hcol 2%nat false false eq_refl eq_refl) as (_ & _ & H2).
    destruct (H2 eq_refl) as (A2 & _).
    destruct (Hcol 3%nat true true eq_refl eq_refl) as (_ & _ & H3).
    destruct (H3 eq_refl) as (A3 & _).
    vm_compute in E0, E1. injection E0 as <-. injection E1 as <-.
    destruct acts as [|a0 [|a1 [|a2 [|a3 [|a4 acts]]]]]; try done.
    simpl in A0, A1, A2, A3. congruence.
Defined.

(** C2 refuted: eleven lit columns on the fresh bot with eleven columns.
    Signal 10 is true and state 10 is false, yet the call raises
    [KeyError(10)] after the presses of columns 0 to 9: no [Press] is sent
    for column 10 and its state stays false. *)
Lemma eleven_lit_columns_key_error :
  length (replicate 11 [255]) = length (replicate 11 false) /\
  signals (replicate 11 [255]) !! 10%nat = Some true /\
  replicate 11 false !! 10%nat = Some false /\
  _handle_press (replicate 11 [255])
    (fresh_world (mkBot bbox7 11 (replicate 11 false) key_codes false))
  = (Raise (KeyError 10),
     mkWorld (mkBot bbox7 11 (replicate 10 true ++ [false]) key_codes false)
             [Press 0x02; Press 0x03; Press 0x04; Press 0x05; Press 0x06;
              Press 0x07; Press 0x08; Press 0x09; Press 0x10; Press 0x11]).
Proof. repeat split; reflexivity. Qed.

(** C7: when the signals equal the current states, any number of calls of
    [_handle_press] returns normally and leaves the world as it was: no key
    event is sent and no state changes. *)
Theorem steady_state_idempotent (n : nat) (cols : list (list Z)) (w : World) :
  signals cols = _col_states (self w) ->
  repeat_handle_press n cols w = (Ok tt, w).
Proof.
  intros Hsig. unfold repeat_handle_press.
  induction n as [|n IH]; [done|].
  simpl. unfold mbind, M_bind, bind, _handle_press.
  rewrite handle_press_from_steady by done. exact IH.
Qed.

Lemma steady_state_idempotent_witness :
  repeat_handle_press 5 (replicate 12 [255; 255] ++ [[0; 255]])
    (mkWorld (mkBot bbox4 13 (replicate 12 true ++ [false]) key_codes false)
             [Press 0x02])
  = (Ok tt,
     mkWorld (mkBot bbox4 13 (replicate 12 true ++ [false]) key_codes false)
             [Press 0x02]).
Proof.
  apply (steady_state_idempotent 5 (replicate 12 [255; 255] ++ [[0; 255]])
           (mkWorld (mkBot bbox4 13 (replicate 12 true ++ [false]) key_codes false)
                    [Press 0x02])).
  reflexivity.
Defined.

(** ** Columns are independent of one another *)

Lemma samples_agree (row row' : list Z) (lo hi : Z) :
  0 <= lo ->
  (forall k : nat, lo <= Z.of_nat k < hi -> row !! k = row' !! k) ->
  samples lo hi row = samples lo hi row'.
Proof.
  intros Hlo Hagree. apply list_eq. intros j.
  rewrite !samples_lookup by done.
  case_decide; [|done]. apply Hagree. lia.
Qed.

Lemma concat_samples_agree (screen screen' : list (list Z)) (lo hi : Z) :
  0 <= lo ->
  length screen = length screen' ->
  (forall (r : nat) row row' (k : nat),
     screen !! r = Some row -> screen' !! r = Some row' ->
     lo <= Z.of_nat k < hi -> row !! k = row' !! k) ->
  concat (samples lo hi <$> screen) = concat (samples lo hi <$> screen').
Proof.
  intros Hlo. revert screen'.
  induction screen as [|row screen IH]; intros [|row' screen'] Hlen Hagree;
    try done.
  simpl. f_equal.
  - apply samples_agree; [done|]. intros k Hk. by apply (Hagree 0%nat).
  - apply IH; [by injection Hlen|].
    intros r ? ? k ? ? Hk. by apply (Hagree (S r)).
Qed.

(** C9: two frames of the same dimensions that agree on the band of column
    [i] give that column the same pixels and the same signal, and a call of
    [_handle_press] from the same world adds the same key events for column
    [i], whatever the other columns hold. *)
Theorem column_depends_on_own_band (w : World) (row0 row0' : list Z)
        (rest rest' : list (list Z)) (frameWidth : nat) (i : nat) :
  _codes (self w) = key_codes ->
  frame_width (row0 :: rest) frameWidth ->
  frame_width (row0' :: rest') frameWidth ->
  length rest = length rest' ->
  Z.of_nat i < columns (self w) ->
  let width := Z.of_nat frameWidth / columns (self w) in
  let tolerance := tolerance_of width in
  (forall (r : nat) row row' (k : nat),
     (row0 :: rest) !! r = Some row -> (row0' :: rest') !! r = Some row' ->
     Z.of_nat i * width + tolerance <= Z.of_nat k
       < (Z.of_nat i + 1) * width - tolerance ->
     row !! k = row' !! k) ->
  exists cols cols' emitted,
    _slice_columns (self w) (row0 :: rest) = Ok cols /\
    _slice_columns (self w) (row0' :: rest') = Ok cols' /\
    cols !! i = cols' !! i /\
    signals cols !! i = signals cols' !! i /\
    column_events key_codes i (keys (_handle_press cols w).2)
    = column_events key_codes i (keys w) ++ emitted /\
    column_events key_codes i (keys (_handle_press cols' w).2)
    = column_events key_codes i (keys w) ++ emitted.
Proof.
  intros Hcodes Hfw Hfw' Hrows Hi width tolerance Hagree.
  destruct (slice_columns_spec (self w) row0 rest frameWidth Hfw ltac:(lia))
    as (cols & Hcols & _ & Hband).
  destruct (slice_columns_spec (self w) row0' rest' frameWidth Hfw' ltac:(lia))
    as (cols' & Hcols' & _ & Hband').
  specialize (Hband i Hi). specialize (Hband' i Hi).
  fold width in Hband, Hband'. fold tolerance in Hband, Hband'.
  pose proof (band_bounds (columns (self w)) frameWidth i ltac:(lia) Hi) as [Hlo _].
  fold width in Hlo. fold tolerance in Hlo.
  assert (Heq : cols !! i = cols' !! i).
  { rewrite Hband, Hband'. f_equal.
    apply concat_samples_agree; [done|simpl; by f_equal|done]. }
  unfold column_events, _handle_press.
  destruct (key_codes !! i) as [c|] eqn:Hc.
  - pose proof (handle_press_from_column key_codes key_codes_inj
                  (fun i j c Hi Hj => key_codes_lookup_lt j
                     ltac:(pose proof (key_codes_lookup_Some i c Hi); lia))
                  cols 0 w i c Hcodes Hc) as [Hk _].
    pose proof (handle_press_from_column key_codes key_codes_inj
                  (fun i j c Hi Hj => key_codes_lookup_lt j
                     ltac:(pose proof (key_codes_lookup_Some i c Hi); lia))
                  cols' 0 w i c Hcodes Hc) as [Hk' _].
    rewrite Nat.sub_0_r in Hk, Hk'. rewrite <- Heq in Hk'.
    eexists cols, cols', _. repeat split; [done|done|done| |exact Hk|exact Hk'].
    unfold signals. by rewrite !list_lookup_fmap, Heq.
  - exists cols, cols', []. repeat split; [done|done|done| ].
    unfold signals. by rewrite !list_lookup_fmap, Heq.
Qed.

Lemma column_depends_on_own_band_witness :
  exists cols cols' emitted,
    _slice_columns (mkBot bbox4 2 [false; true] key_codes false)
                   [[0; 255; 255; 255; 0; 0; 0; 0; 255; 0; 7]] = Ok cols /\
    _slice_columns (mkBot bbox4 2 [false; true] key_codes false)
                   [[255; 255; 255; 255; 255; 255; 255; 255; 255; 255; 0]] = Ok cols' /\
    cols !! 0%nat = cols' !! 0%nat /\
    signals cols !! 0%nat = signals cols' !! 0%nat /\
    column_events key_codes 0
      (keys (_handle_press cols
               (mkWorld (mkBot bbox4 2 [false; true] key_codes false) [])).2)
    = column_events key_codes 0 [] ++ emitted /\
    column_events key_codes 0
      (keys (_handle_press cols'
               (mkWorld (mkBot bbox4 2 [false; true] key_codes false) [])).2)
    = column_events key_codes 0 [] ++ emitted.
Proof.
  apply (column_depends_on_own_band
           (mkWorld (mkBot bbox4 2 [false; true] key_codes false) [])
           [0; 255; 255; 255; 0; 0; 0; 0; 255; 0; 7]
           [255; 255; 255; 255; 255; 255; 255; 255; 255; 255; 0]
           [] [] 11 0).
  - reflexivity.
  - intros row Hrow. apply list_elem_of_singleton in Hrow as ->. done.
  - intros row Hrow. apply list_elem_of_singleton in Hrow as ->. done.
  - reflexivity.
  - reflexivity.
  - intros r row row' k Hrow Hrow' Hk.
    destruct r as [|r]; [|done]. simpl in Hrow, Hrow'.
    injection Hrow as <-. injection Hrow' as <-.
    change (tolerance_of _) with 1 in Hk.
    change (Z.of_nat 11 `div` _) with 5 in Hk. change (Z.of_nat 0) with 0 in Hk.
    assert (k = 1 \/ k = 2 \/ k = 3)%nat as [->|[->| ->]] by lia; done.
Defined.

(** ** Alternation of the events of one key *)

Lemma alternates_app (held : bool) (tr1 tr2 : list Action) :
  alternates held (tr1 ++ tr2)
  = alternates held tr1 ≫= fun held' => alternates held' tr2.
Proof.
  revert held. induction tr1 as [|[c|c] tr1 IH]; intros held; simpl; [done| |].
  - destruct held; [done|apply IH].
  - destruct held; [apply IH|done].
Qed.

Lemma alternates_edge (signal held : bool) (c : Z) :
  alternates held (edge_actions signal held c) = Some signal.
Proof. by destruct signal, held. Qed.

Lemma handle_press_consistent (cols : list (list Z)) (w : World) :
  consistent w -> consistent (_handle_press cols w).2.
Proof.
  intros [Hcodes Hinv]. unfold _handle_press. split.
  { by rewrite handle_press_from_codes. }
  intros i. specialize (Hinv i). unfold column_events in *.
  destruct (key_codes !! i) as [c|] eqn:Hc.
  - pose proof (handle_press_from_column key_codes key_codes_inj
                  (fun i j c Hi Hj => key_codes_lookup_lt j
                     ltac:(pose proof (key_codes_lookup_Some i c Hi); lia))
                  cols 0 w i c Hcodes Hc) as [Hk Hs].
    rewrite Hk, Hs, alternates_app, Hinv. simpl.
    rewrite Nat.sub_0_r.
    destruct (cols !! i) as [col|]; simpl; [|done].
    destruct (_col_states (self w) !! i) as [held|]; simpl; [|done].
    apply alternates_edge.
  - rewrite handle_press_from_uncoded by (by rewrite Hcodes).
    exact Hinv.
Qed.

Lemma handle_presses_consistent (inputs : list (list (list Z))) (w : World) :
  consistent w -> consistent (handle_presses inputs w).2.
Proof.
  revert w. induction inputs as [|cols inputs IH]; intros w Hw; [done|].
  simpl. unfold mbind, M_bind, bind.
  pose proof (handle_press_consistent cols w Hw) as Hw1.
  destruct (_handle_press cols w) as [[[]|e] w1]; simpl in *; [|done].
  by apply IH.
Qed.

(** C10: from the bot as constructed, after any sequence of calls of
    [_handle_press] (ended by an exception or not), the key events of every
    column replay from "not held" with a [Press] only when the key is not
    held and a [Release] only when it is: they alternate, beginning with
    [Press], and end in the state the bot holds for the column. *)
Theorem key_events_alternate (bbox : Z * Z * Z * Z) (columns : Z)
        (inputs : list (list (list Z))) (b : OsuManiaBot) (i : nat) :
  __init__ bbox columns = Ok b ->
  let w' := (handle_presses inputs (fresh_world b)).2 in
  alternates false (column_events key_codes i (keys w'))
  = Some (default false (_col_states (self w') !! i)).
Proof.
  intros [= <-] w'.
  assert (Hfresh : consistent
                     (fresh_world (mkBot bbox columns (_initialize_states columns)
                                         key_codes false))).
  { split; [done|]. intros j. unfold column_events. simpl.
    assert (default false (_initialize_states columns !! j) = false) as ->.
    { unfold _initialize_states.
      destruct (replicate (Z.to_nat columns) false !! j) as [v|] eqn:Hv; [|done].
      by apply lookup_replicate_1 in Hv as [-> _]. }
    by destruct (key_codes !! j). }
  by destruct (handle_presses_consistent inputs _ Hfresh) as [_ Hinv].
Qed.

Lemma key_events_alternate_witness :
  alternates false [Press 0x04; Release 0x04; Press 0x04] = Some true.
Proof.
  exact (key_events_alternate bbox4 4
           [[[255]; [0]; [255]; [0]]; [[0]; [0]; [0]; [0]]; [[0]; [255]; [255]; [0]]]
           (mkBot bbox4 4 [false; false; false; false] key_codes false) 2
           eq_refl).
Defined.

(** ** Column counts beyond the key code table *)

(** C1, as the code has it: construction returns a bot for every column
    count, with one "not held" state per column, and checks nothing against
    the key code table. With more than ten columns the error comes from
    [_handle_press]: on the bot as constructed, a call whose column 10 is lit
    raises [KeyError(10)], and a call in which no column from index 10 on is
    lit returns normally. *)
Theorem init_succeeds_key_lookup_fails_later (bbox : Z * Z * Z * Z) (columns : Z) :
  exists b,
    __init__ bbox columns = Ok b /\
    _col_states b = replicate (Z.to_nat columns) false /\
    (forall (cols : list (list Z)) (col : list Z),
       Z.of_nat (length cols) = columns ->
       cols !! 10%nat = Some col -> np_all col = true ->
       (_handle_press cols (fresh_world b)).1 = Raise (KeyError 10)) /\
    (forall cols : list (list Z),
       Z.of_nat (length cols) = columns ->
       (forall (j : nat) col, (10 <= j)%nat -> cols !! j = Some col -> np_all col = false) ->
       (_handle_press cols (fresh_world b)).1 = Ok tt).
Proof.
  eexists. split; [done|]. split; [done|]. split.
  - intros cols col Hlen Hcol Hlit. unfold _handle_press.
    pose proof (lookup_lt_Some _ _ _ Hcol) as Hlt.
    rewrite <- (take_drop_middle cols 10 col Hcol).
    assert (Htake : length (take 10 cols) = 10%nat) by (rewrite length_take; lia).
    rewrite handle_press_from_app, handle_press_from_ok.
    + rewrite Htake, handle_press_from_cons, handle_column_spec. simpl.
      rewrite lookup_app_r by (unfold signals; rewrite length_fmap; lia).
      unfold signals. rewrite length_fmap, Htake, Nat.sub_diag.
      unfold _initialize_states.
      rewrite lookup_drop, lookup_replicate_2 by lia.
      rewrite Hlit. simpl. done.
    + simpl. unfold _initialize_states. rewrite length_replicate. lia.
    + simpl. intros j c held Hj _ _. apply key_codes_lookup_lt.
      apply lookup_lt_Some in Hj. lia.
  - intros cols Hlen Hdark. unfold _handle_press.
    rewrite handle_press_from_ok; [done| |].
    + simpl. unfold _initialize_states. rewrite length_replicate. lia.
    + simpl. intros j col held Hcol Hst Hne. apply key_codes_lookup_lt.
      unfold _initialize_states in Hst.
      apply lookup_replicate_1 in Hst as [-> _].
      destruct (decide (j < 10)%nat) as [|Hge]; [done|].
      rewrite (Hdark j col) in Hne by (done || lia). done.
Qed.

Lemma init_succeeds_key_lookup_fails_later_witness :
  exists b,
    __init__ bbox7 11 = Ok b /\
    _col_states b = replicate 11 false /\
    (_handle_press (replicate 10 [0] ++ [[255; 255]]) (fresh_world b)).1
    = Raise (KeyError 10) /\
    (_handle_press (replicate 10 [255] ++ [[255; 0]]) (fresh_world b)).1 = Ok tt.
Proof.
  destruct (init_succeeds_key_lookup_fails_later bbox7 11)
    as (b & Hinit & Hst & Hfail & Hok).
  exists b. split; [exact Hinit|]. split; [exact Hst|]. split.
  - apply (Hfail _ [255; 255]); reflexivity.
  - apply Hok; [reflexivity|].
    intros j col Hj Hcol.
    destruct (decide (j = 10%nat)) as [->|Hne].
    + injection Hcol as <-. reflexivity.
    + apply lookup_lt_Some in Hcol as Hlt. simpl in Hlt. lia.
Defined.

(** C1 refuted: with eleven columns the constructor raises nothing; it
    returns a bot, and [run] on one frame of width 110 with every sample lit
    fails in that frame, at the key lookup of column 10. *)
Lemma eleven_columns_construction_succeeds :
  (~ exists e, __init__ bbox7 11 = Raise e) /\
  exists b,
    __init__ bbox7 11 = Ok b /\
    (run [[replicate 110 255]] (fresh_world b)).1 = Raise (KeyError 10).
Proof.
  split.
  - intros [e He]. discriminate He.
  - eexists. split; reflexivity.
Qed.

(** * Further properties of the reducer *)


(** Whatever the rows look like, a returned list has one column per index of
    [range(columns)]: none at all for a negative count. *)
Theorem slice_columns_length_any_rows (b : OsuManiaBot) (screen cols : list (list Z)) :
  _slice_columns b screen = Ok cols ->
  length cols = Z.to_nat (columns b).
Proof.
  unfold _slice_columns. destruct screen as [|row0 rest]; [done|].
  destruct (columns b =? 0); [done|]. intros [= <-].
  change (foldl ?f ?a (row0 :: rest)) with (foldl f (f a row0) rest).
  by rewrite slice_rows_length, slice_row_length, length_replicate.
Qed.

Lemma slice_columns_length_any_rows_witness :
  _slice_columns (mkBot bbox4 3 [false; false; false] key_codes false)
    [[1; 255; 0; 0; 255; 255; 0; 255; 0; 0]; [255; 7]; [];
     [0; 0; 0; 0; 0; 255; 255; 9; 1]]
  = Ok [[255; 7; 0]; [255; 0]; [255; 9]] /\
  length [[255; 7; 0]; [255; 0]; [255; 9]] = Z.to_nat 3.
Proof.
  split; [reflexivity|].
  apply (slice_columns_length_any_rows
           (mkBot bbox4 3 [false; false; false] key_codes false)
           [[1; 255; 0; 0; 255; 255; 0; 255; 0; 0]; [255; 7]; [];
            [0; 0; 0; 0; 0; 255; 255; 9; 1]]
           [[255; 7; 0]; [255; 0]; [255; 9]]).
  reflexivity.
Defined.

Lemma samples_length (row : list Z) (lo hi : Z) :
  0 <= lo <= hi -> hi <= Z.of_nat (length row) ->
  Z.of_nat (length (samples lo hi row)) = hi - lo.
Proof.
  intros Hlo Hhi. unfold samples. rewrite length_take, length_drop. lia.
Qed.

Lemma concat_samples_length (screen : list (list Z)) (frameWidth : nat) (lo hi : Z) :
  frame_width screen frameWidth ->
  0 <= lo <= hi -> hi <= Z.of_nat frameWidth ->
  Z.of_nat (length (concat (samples lo hi <$> screen)))
  = Z.of_nat (length screen) * (hi - lo).
Proof.
  intros Hfw Hlo Hhi. induction screen as [|row screen IH]; [simpl; lia|].
  rewrite fmap_cons. cbn [concat length].
  rewrite length_app, Nat2Z.inj_add, IH.
  - rewrite samples_length; [lia|done|].
    rewrite (Hfw row) by left. done.
  - intros r Hr. apply Hfw. by right.
Qed.

(** On a frame with rows of one length [frameWidth >= columns >= 1] every
    column receives the same number of samples, [width - 2 * tolerance] from
    each row, and that number is at least one: no band is empty. *)
Theorem column_sample_count (b : OsuManiaBot) (row0 : list Z)
        (rest : list (list Z)) (frameWidth : nat) (i : nat) :
  frame_width (row0 :: rest) frameWidth ->
  columns b <= Z.of_nat frameWidth ->
  Z.of_nat i < columns b ->
  let width := Z.of_nat frameWidth / columns b in
  exists cols col,
    _slice_columns b (row0 :: rest) = Ok cols /\
    cols !! i = Some col /\
    1 <= width - 2 * tolerance_of width /\
    Z.of_nat (length col)
    = Z.of_nat (S (length rest)) * (width - 2 * tolerance_of width).
Proof.
  intros Hfw Hc Hi width.
  destruct (slice_columns_spec b row0 rest frameWidth Hfw ltac:(lia))
    as (cols & Hcols & _ & Hband).
  specialize (Hband i Hi). fold width in Hband.
  pose proof (band_bounds (columns b) frameWidth i ltac:(lia) Hi) as [Hlo Hhi].
  fold width in Hlo, Hhi.
  assert (Hw : 1 <= width).
  { subst width. apply Z.div_le_lower_bound; lia. }
  pose proof (tolerance_twice_lt width Hw) as Ht.
  eexists cols, _. split; [done|]. split; [done|]. split; [lia|].
  rewrite concat_samples_length with (frameWidth := frameWidth);
    [simpl length; lia|done|lia|lia].
Qed.

Lemma column_sample_count_witness :
  exists cols col,
    _slice_columns (mkBot bbox7 7 (replicate 7 false) key_codes false)
                   [replicate 350 255; replicate 350 0] = Ok cols /\
    cols !! 6%nat = Some col /\
    1 <= 50 - 2 * 10 /\
    Z.of_nat (length col) = 2 * (50 - 2 * 10).
Proof.
  apply (column_sample_count
           (mkBot bbox7 7 (replicate 7 false) key_codes false)
           (replicate 350 255) [replicate 350 0] 350 6).
  - intros row Hrow. apply elem_of_cons in Hrow as [->|Hrow]; [done|].
    apply list_elem_of_singleton in Hrow as ->. done.
  - simpl. lia.
  - simpl. lia.
Defined.

Lemma elem_of_py_slice (row : list Z) (start stop : Z) (p : Z) :
  p ∈ py_slice row start stop -> p ∈ row.
Proof.
  unfold py_slice. intros Hp.
  apply elem_of_take in Hp as (j & Hj & _).
  rewrite lookup_drop in Hj. by eapply list_elem_of_lookup_2.
Qed.

(** A frame without a zero sample lights every column, whatever the lengths
    of its rows and whatever the column count. *)
Theorem all_lit_frame_all_signals (b : OsuManiaBot) (screen cols : list (list Z))
        (i : nat) (signal : bool) :
  (forall row p, row ∈ screen -> p ∈ row -> p <> 0) ->
  _slice_columns b screen = Ok cols ->
  signals cols !! i = Some signal ->
  signal = true.
Proof.
  intros Hlit Hcols Hsig. unfold _slice_columns in Hcols.
  destruct screen as [|row0 rest]; [done|].
  destruct (columns b =? 0); [done|].
  match type of Hcols with Ok ?t = _ => assert (E : t = cols) by congruence end.
  clear Hcols. subst cols.
  unfold signals in Hsig. rewrite list_lookup_fmap, slice_rows_lookup in Hsig.
  destruct (replicate (Z.to_nat (columns b)) [] !! i) as [c0|] eqn:Hc0; [|done].
  apply lookup_replicate_1 in Hc0 as [-> _]. simpl in Hsig.
  injection Hsig as <-. apply np_all_true.
  intros p [Hp|Hp]%elem_of_app.
  - apply (Hlit row0 p); [left|]. by eapply elem_of_py_slice.
  - apply elem_of_concat_fmap in Hp as (row & Hrow & Hp).
    apply (Hlit row p); [by right|]. by eapply elem_of_py_slice.
Qed.

Lemma all_lit_frame_all_signals_witness : np_all [255; 3] = true.
Proof.
  apply (all_lit_frame_all_signals
           (mkBot bbox4 4 (replicate 4 false) key_codes false)
           [[255; 255; 1; 255; 255; 3; 255; 255; 255; 255]; [255; 255; 255]]
           [[255; 255; 255; 255]; [1; 255; 255]; [255; 3]; [255; 255]]
           2 (np_all [255; 3])).
  - intros row p Hrow Hp.
    apply elem_of_cons in Hrow as [->|Hrow];
      [|apply list_elem_of_singleton in Hrow as ->];
      repeat (apply elem_of_cons in Hp as [->|Hp]; [lia|]);
      by apply not_elem_of_nil in Hp.
  - reflexivity.
  - reflexivity.
Defined.

(** A frame of zeros with rows of one length [frameWidth >= columns >= 1]
    lights no column. *)
Theorem all_dark_frame_no_signal (b : OsuManiaBot) (row0 : list Z)
        (rest : list (list Z)) (frameWidth : nat) (i : nat) :
  frame_width (row0 :: rest) frameWidth ->
  (forall row p, row ∈ row0 :: rest -> p ∈ row -> p = 0) ->
  columns b <= Z.of_nat frameWidth ->
  Z.of_nat i < columns b ->
  exists cols,
    _slice_columns b (row0 :: rest) = Ok cols /\
    signals cols !! i = Some false.
Proof.
  intros Hfw Hdark Hc Hi.
  destruct (slice_columns_spec b row0 rest frameWidth Hfw ltac:(lia))
    as (cols & Hcols & _ & Hband).
  specialize (Hband i Hi).
  pose proof (band_bounds (columns b) frameWidth i ltac:(lia) Hi) as [Hlo Hhi].
  cbv zeta in Hlo, Hhi.
  set (width := Z.of_nat frameWidth / columns b) in *.
  assert (Hw : 1 <= width).
  { subst width. apply Z.div_le_lower_bound; lia. }
  pose proof (tolerance_twice_lt width Hw) as Ht.
  assert (Hlen : 1 <= Z.of_nat (length
            (concat (samples (Z.of_nat i * width + tolerance_of width)
                             ((Z.of_nat i + 1) * width - tolerance_of width)
                     <$> row0 :: rest)))).
  { rewrite concat_samples_length with (frameWidth := frameWidth);
      [simpl length; nia|done|lia|lia]. }
  remember (concat (samples (Z.of_nat i * width + tolerance_of width)
                            ((Z.of_nat i + 1) * width - tolerance_of width)
                    <$> row0 :: rest)) as col eqn:Hcol.
  exists cols. split; [done|].
  unfold signals. rewrite list_lookup_fmap, Hband. simpl. f_equal.
  destruct col as [|p col]; [simpl in Hlen; lia|].
  assert (Hp : p ∈ p :: col) by left.
  rewrite Hcol in Hp.
  apply elem_of_concat_fmap in Hp as (row & Hrow & Hp).
  apply elem_of_samples in Hp as (k & _ & Hk); [|done].
  rewrite (Hdark row p Hrow) by (by eapply list_elem_of_lookup_2). done.
Qed.

Lemma all_dark_frame_no_signal_witness :
  exists cols,
    _slice_columns (mkBot bbox4 4 (replicate 4 false) key_codes false)
                   [replicate 4 0] = Ok cols /\
    signals cols !! 3%nat = Some false.
Proof.
  apply (all_dark_frame_no_signal
           (mkBot bbox4 4 (replicate 4 false) key_codes false)
           (replicate 4 0) [] 4 3).
  - intros row Hrow. apply list_elem_of_singleton in Hrow as ->. done.
  - intros row p Hrow Hp. apply list_elem_of_singleton in Hrow as ->.
    repeat (apply elem_of_cons in Hp as [->|Hp]; [done|]).
    by apply not_elem_of_nil in Hp.
  - simpl. lia.
  - simpl. lia.
Defined.

(** * Further properties of the key state machine *)

Lemma handle_press_from_settings (cols : list (list Z)) (k : nat) (w : World) :
  bbox (self (handle_press_from k cols w).2) = bbox (self w) /\
  columns (self (handle_press_from k cols w).2) = columns (self w) /\
  _inplay (self (handle_press_from k cols w).2) = _inplay (self w) /\
  length (_col_states (self (handle_press_from k cols w).2))
  = length (_col_states (self w)).
Proof.
  revert k w. induction cols as [|col cols IH]; intros k w; [done|].
  rewrite handle_press_from_cons, handle_column_spec.
  destruct (_col_states (self w) !! k) as [held|] eqn:Hst; [|done].
  destruct (decide (np_all col = held)); [apply IH|].
  destruct (_codes (self w) !! k) as [ck|] eqn:Hck; [|done].
  match goal with |- context [handle_press_from (S k) cols ?w1] =>
    destruct (IH (S k) w1) as (-> & -> & -> & ->) end.
  simpl. by rewrite length_insert.
Qed.

Lemma edge_actions_length (signal held : bool) (c : Z) :
  (length (edge_actions signal held c) <= 1)%nat.
Proof. destruct signal, held; simpl; lia. Qed.

Lemma edge_actions_code (signal held : bool) (c : Z) (a : Action) :
  a ∈ edge_actions signal held c -> action_code a = c.
Proof.
  destruct signal, held; simpl; intros Ha;
    try (by apply not_elem_of_nil in Ha);
    by apply list_elem_of_singleton in Ha as ->.
Qed.

Lemma handle_press_from_trace (cols : list (list Z)) (k : nat) (w : World) :
  exists added,
    keys (handle_press_from k cols w).2 = keys w ++ added /\
    (length added <= length cols)%nat /\
    forall a, a ∈ added ->
      exists i : nat, (k <= i < k + length cols)%nat /\
        _codes (self w) !! i = Some (action_code a).
Proof.
  revert k w. induction cols as [|col cols IH]; intros k w.
  { exists []. simpl. rewrite app_nil_r. split; [done|]. split; [done|].
    by intros a ?%not_elem_of_nil. }
  rewrite handle_press_from_cons, handle_column_spec.
  destruct (_col_states (self w) !! k) as [held|] eqn:Hst.
  2:{ exists []. simpl. rewrite app_nil_r. split; [done|]. split; [lia|].
      by intros a ?%not_elem_of_nil. }
  destruct (decide (np_all col = held)).
  { destruct (IH (S k) w) as (added & -> & Hlen & Hcodes).
    exists added. split; [done|]. split; [simpl; lia|].
    intros a Ha. destruct (Hcodes a Ha) as (i & Hi & Hc).
    exists i. split; [simpl; lia|done]. }
  destruct (_codes (self w) !! k) as [ck|] eqn:Hck.
  2:{ exists []. simpl. rewrite app_nil_r. split; [done|]. split; [lia|].
      by intros a ?%not_elem_of_nil. }
  match goal with |- context [handle_press_from (S k) cols ?w1] =>
    destruct (IH (S k) w1) as (added & -> & Hlen & Hcodes) end.
  simpl in *. exists (edge_actions (np_all col) held ck ++ added).
  split; [by rewrite app_assoc|]. split.
  - rewrite length_app.
    pose proof (edge_actions_length (np_all col) held ck). lia.
  - intros a [Ha|Ha]%elem_of_app.
    + exists k. split; [lia|]. by rewrite (edge_actions_code _ _ _ _ Ha).
    + destruct (Hcodes a Ha) as (i & Hi & Hc). exists i. split; [lia|done].
Qed.

Lemma handle_press_from_outside (cols : list (list Z)) (k : nat) (w : World)
      (i : nat) :
  (i < k \/ k + length cols <= i)%nat ->
  _col_states (self (handle_press_from k cols w).2) !! i
  = _col_states (self w) !! i.
Proof.
  revert k w. induction cols as [|col cols IH]; intros k w Hi; [done|].
  simpl in Hi.
  rewrite handle_press_from_cons, handle_column_spec.
  destruct (_col_states (self w) !! k) as [held|] eqn:Hst; [|done].
  destruct (decide (np_all col = held)); [apply IH; lia|].
  destruct (_codes (self w) !! k) as [ck|] eqn:Hck; [|done].
  rewrite IH by lia. simpl. apply list_lookup_insert_ne. lia.
Qed.

Lemma handle_press_from_mirror (cols : list (list Z)) (k : nat) (w w' : World) :
  handle_press_from k cols w = (Ok tt, w') ->
  forall (j : nat) col, cols !! j = Some col ->
    _col_states (self w') !! (k + j)%nat = Some (np_all col).
Proof.
  revert k w. induction cols as [|col0 cols IH]; intros k w Hrun j col Hcol;
    [done|].
  rewrite handle_press_from_cons, handle_column_spec in Hrun.
  destruct (_col_states (self w) !! k) as [held|] eqn:Hst; [|done].
  destruct (decide (np_all col0 = held)) as [Hsig|Hsig].
  - destruct j as [|j].
    + injection Hcol as <-. rewrite Nat.add_0_r.
      replace w' with (handle_press_from (S k) cols w).2 by (by rewrite Hrun).
      rewrite handle_press_from_outside by lia. by rewrite Hst, Hsig.
    + replace (k + S j)%nat with (S k + j)%nat by lia. by eapply IH.
  - destruct (_codes (self w) !! k) as [ck|] eqn:Hck; [|done].
    destruct j as [|j].
    + injection Hcol as <-. rewrite Nat.add_0_r.
      match type of Hrun with handle_press_from _ _ ?w1 = _ =>
        replace w' with (handle_press_from (S k) cols w1).2 by (by rewrite Hrun)
      end.
      rewrite handle_press_from_outside by lia. simpl.
      apply list_lookup_insert_eq. by eapply lookup_lt_Some.
    + replace (k + S j)%nat with (S k + j)%nat by lia. by eapply IH.
Qed.

Lemma handle_press_from_steady_prefix (cols : list (list Z)) (k : nat) (w : World) :
  (forall (j : nat) col, cols !! j = Some col ->
     _col_states (self w) !! (k + j)%nat = Some (np_all col)) ->
  handle_press_from k cols w = (Ok tt, w).
Proof.
  revert k. induction cols as [|col cols IH]; intros k Hst; [done|].
  rewrite handle_press_from_cons, handle_column_steady.
  - apply IH. intros j c Hc.
    replace (S k + j)%nat with (k + S j)%nat by lia. by apply Hst.
  - rewrite <- (Nat.add_0_r k). by apply Hst.
Qed.

(** Whether it returns or raises, [_handle_press] leaves [bbox], [columns],
    [_codes] and [_inplay] alone and never changes the number of column
    states. *)
Theorem handle_press_keeps_settings (cols : list (list Z)) (w : World) :
  bbox (self (_handle_press cols w).2) = bbox (self w) /\
  columns (self (_handle_press cols w).2) = columns (self w) /\
  _codes (self (_handle_press cols w).2) = _codes (self w) /\
  _inplay (self (_handle_press cols w).2) = _inplay (self w) /\
  length (_col_states (self (_handle_press cols w).2))
  = length (_col_states (self w)).
Proof.
  unfold _handle_press.
  destruct (handle_press_from_settings cols 0 w) as (? & ? & ? & ?).
  by rewrite handle_press_from_codes.
Qed.


(** Whether it returns or raises, [_handle_press] never touches the state of
    a column index for which it was given no column. *)
Theorem handle_press_beyond_untouched (cols : list (list Z)) (w : World) (i : nat) :
  (length cols <= i)%nat ->
  _col_states (self (_handle_press cols w).2) !! i = _col_states (self w) !! i.
Proof.
  intros Hi. unfold _handle_press. apply handle_press_from_outside. lia.
Qed.

Lemma handle_press_beyond_untouched_witness :
  _col_states
    (self (_handle_press [[255]; [0]]
             (mkWorld (mkBot bbox4 4 [false; true; true; false] key_codes false) [])).2)
    !! 2%nat
  = [false; true; true; false] !! 2%nat.
Proof.
  apply (handle_press_beyond_untouched [[255]; [0]]
           (mkWorld (mkBot bbox4 4 [false; true; true; false] key_codes false) []) 2).
  simpl. lia.
Defined.

(** After a call of [_handle_press] that returned, the state of every column
    it was given equals that column's signal. *)
Theorem handle_press_success_mirrors_signals (cols : list (list Z)) (w w' : World)
        (i : nat) (col : list Z) :
  _handle_press cols w = (Ok tt, w') ->
  cols !! i = Some col ->
  _col_states (self w') !! i = Some (np_all col).
Proof.
  intros Hrun Hcol. by apply (handle_press_from_mirror cols 0 w w' Hrun i col).
Qed.

Lemma handle_press_success_mirrors_signals_witness :
  [true; false; false; true] !! 1%nat = Some (np_all [0; 255]).
Proof.
  apply (handle_press_success_mirrors_signals
           [[255; 255]; [0; 255]; [0]; [255]]
           (mkWorld (mkBot bbox4 4 [false; true; false; true] key_codes false) [])
           (mkWorld (mkBot bbox4 4 [true; false; false; true] key_codes false)
                    [Press 0x02; Release 0x03])
           1 [0; 255]); reflexivity.
Defined.

(** A call that returned can be repeated on the same columns: the second
    call returns as well, sends no key event and changes no state. *)
Theorem handle_press_twice (cols : list (list Z)) (w w' : World) :
  _handle_press cols w = (Ok tt, w') ->
  _handle_press cols w' = (Ok tt, w').
Proof.
  intros Hrun. unfold _handle_press. apply handle_press_from_steady_prefix.
  intros j col Hcol. by apply (handle_press_from_mirror cols 0 w w' Hrun j col).
Qed.

Lemma handle_press_twice_witness :
  _handle_press [[255; 255]; [0; 255]; [0]; [255]]
    (mkWorld (mkBot bbox4 4 [true; false; false; true] key_codes false)
             [Press 0x02; Release 0x03])
  = (Ok tt,
     mkWorld (mkBot bbox4 4 [true; false; false; true] key_codes false)
             [Press 0x02; Release 0x03]).
Proof.
  apply (handle_press_twice
           [[255; 255]; [0; 255]; [0]; [255]]
           (mkWorld (mkBot bbox4 4 [false; true; false; true] key_codes false) [])).
  reflexivity.
Defined.

(** The first column that has to change state but has no key code stops the
    call with [KeyError]: the columns before it have been handled (their
    events sent, their states set to their signals), the failing column and
    the columns after it are left as they were. *)
Theorem handle_press_key_error_point (pre post : list (list Z)) (col : list Z)
        (w : World) (held : bool) :
  (forall (j : nat) c h,
     pre !! j = Some c -> _col_states (self w) !! j = Some h ->
     np_all c <> h -> is_Some (_codes (self w) !! j)) ->
  _col_states (self w) !! length pre = Some held ->
  np_all col <> held ->
  _codes (self w) !! length pre = None ->
  _handle_press (pre ++ col :: post) w
  = (Raise (KeyError (length pre)),
     mkWorld (with_col_states (self w)
                (signals pre ++ drop (length pre) (_col_states (self w))))
             (keys w ++ concat (update_actions (_codes (self w)) 0 (signals pre)
                                  (_col_states (self w))))).
Proof.
  intros Hpre Hst Hsig Hcode. unfold _handle_press.
  pose proof (lookup_lt_Some _ _ _ Hst) as Hlt.
  rewrite handle_press_from_app, handle_press_from_ok; [|simpl; lia|done].
  rewrite handle_press_from_cons, handle_column_spec. simpl.
  rewrite drop_0.
  rewrite lookup_app_r by (unfold signals; rewrite length_fmap; lia).
  unfold signals at 1. rewrite length_fmap, Nat.sub_diag, lookup_drop.
  rewrite Nat.add_0_r, Hst. rewrite decide_False by done. by rewrite Hcode.
Qed.

Lemma handle_press_key_error_point_witness :
  _handle_press (replicate 10 [0] ++ [255; 255] :: [[255]])
    (fresh_world (mkBot bbox7 12 (replicate 12 false) key_codes false))
  = (Raise (KeyError 10),
     fresh_world (mkBot bbox7 12 (replicate 12 false) key_codes false)).
Proof.
  apply (handle_press_key_error_point (replicate 10 [0]) [[255]] [255; 255]
           (fresh_world (mkBot bbox7 12 (replicate 12 false) key_codes false))
           false).
  - intros j c h Hc _ _. apply key_codes_lookup_lt.
    apply lookup_lt_Some in Hc. simpl in Hc. lia.
  - reflexivity.
  - discriminate.
  - reflexivity.
Defined.

(** Given more columns than there are column states, a call whose earlier
    columns all have the key codes they need handles those and then raises
    [IndexError] at the first column without a state. *)
Theorem handle_press_index_error_point (pre post : list (list Z)) (col : list Z)
        (w : World) :
  (forall (j : nat) c h,
     pre !! j = Some c -> _col_states (self w) !! j = Some h ->
     np_all c <> h -> is_Some (_codes (self w) !! j)) ->
  length (_col_states (self w)) = length pre ->
  _handle_press (pre ++ col :: post) w
  = (Raise IndexError,
     mkWorld (with_col_states (self w) (signals pre))
             (keys w ++ concat (update_actions (_codes (self w)) 0 (signals pre)
                                  (_col_states (self w))))).
Proof.
  intros Hpre Hlen. unfold _handle_press.
  rewrite handle_press_from_app, handle_press_from_ok; [|simpl; lia|done].
  rewrite handle_press_from_cons, handle_column_spec. simpl.
  rewrite drop_0, <- Hlen, drop_all, app_nil_r.
  rewrite (lookup_ge_None_2 (signals pre))
    by (unfold signals; rewrite length_fmap; lia).
  done.
Qed.

Lemma handle_press_index_error_point_witness :
  _handle_press ([[255]; [0]] ++ [255] :: [[0]])
    (fresh_world (mkBot bbox4 2 [false; true] key_codes false))
  = (Raise IndexError,
     mkWorld (mkBot bbox4 2 [true; false] key_codes false)
             [Press 0x02; Release 0x03]).
Proof.
  apply (handle_press_index_error_point [[255]; [0]] [[0]] [255]
           (fresh_world (mkBot bbox4 2 [false; true] key_codes false))).
  - intros j c h Hc _ _. apply key_codes_lookup_lt.
    apply lookup_lt_Some in Hc. simpl in Hc. lia.
  - reflexivity.
Defined.

(** * Properties of [run] *)

Lemma run_frame_unfold (binary : list (list Z)) (w : World) :
  run_frame binary w
  = match _slice_columns (self w) binary with
    | Ok cols => _handle_press cols w
    | Raise e => (Raise e, w)
    end.
Proof.
  unfold run_frame, mbind, M_bind, bind, lift.
  by destruct (_slice_columns (self w) binary).
Qed.

Lemma run_frames_cons (binary : list (list Z)) (rest : list (list (list Z)))
      (w : World) :
  run_frames (binary :: rest) w
  = match run_frame binary w with
    | (Ok _, w') => run_frames rest w'
    | (Raise e, w') => (Raise e, w')
    end.
Proof. done. Qed.

Lemma run_frames_app (frames1 frames2 : list (list (list Z))) (w : World) :
  run_frames (frames1 ++ frames2) w
  = match run_frames frames1 w with
    | (Ok _, w') => run_frames frames2 w'
    | (Raise e, w') => (Raise e, w')
    end.
Proof.
  revert w. induction frames1 as [|f frames1 IH]; intros w; [done|].
  rewrite <- app_comm_cons, !run_frames_cons.
  destruct (run_frame f w) as [[[]|e] w1]; [apply IH|done].
Qed.

Lemma run_frame_settings (binary : list (list Z)) (w : World) :
  bbox (self (run_frame binary w).2) = bbox (self w) /\
  columns (self (run_frame binary w).2) = columns (self w) /\
  _codes (self (run_frame binary w).2) = _codes (self w) /\
  _inplay (self (run_frame binary w).2) = _inplay (self w) /\
  length (_col_states (self (run_frame binary w).2))
  = length (_col_states (self w)).
Proof.
  rewrite run_frame_unfold.
  destruct (_slice_columns (self w) binary) as [cols|e]; [|done].
  unfold _handle_press.
  destruct (handle_press_from_settings cols 0 w) as (? & ? & ? & ?).
  by rewrite handle_press_from_codes.
Qed.

Lemma run_frames_settings (frames : list (list (list Z))) (w : World) :
  bbox (self (run_frames frames w).2) = bbox (self w) /\
  columns (self (run_frames frames w).2) = columns (self w) /\
  _codes (self (run_frames frames w).2) = _codes (self w) /\
  _inplay (self (run_frames frames w).2) = _inplay (self w) /\
  length (_col_states (self (run_frames frames w).2))
  = length (_col_states (self w)).
Proof.
  revert w. induction frames as [|f frames IH]; intros w; [done|].
  rewrite run_frames_cons.
  pose proof (run_frame_settings f w) as Hf.
  destruct (run_frame f w) as [[[]|e] w1]; simpl in Hf; [|done].
  destruct (IH w1) as (-> & -> & -> & -> & ->). done.
Qed.

(** However [run] ends, by the quit key or by an exception, it leaves
    [_inplay] set, and it has changed neither [bbox], [columns] and [_codes]
    nor the number of column states. *)
Theorem run_keeps_settings (frames : list (list (list Z))) (w : World) :
  _inplay (self (run frames w).2) = true /\
  bbox (self (run frames w).2) = bbox (self w) /\
  columns (self (run frames w).2) = columns (self w) /\
  _codes (self (run frames w).2) = _codes (self w) /\
  length (_col_states (self (run frames w).2)) = length (_col_states (self w)).
Proof.
  unfold run, mbind, M_bind, bind, set_inplay.
  match goal with |- context [run_frames frames ?w1] =>
    destruct (run_frames_settings frames w1) as (-> & -> & -> & -> & ->) end.
  done.
Qed.

Lemma slice_columns_negative (b : OsuManiaBot) (row0 : list Z) (rest : list (list Z)) :
  columns b < 0 -> _slice_columns b (row0 :: rest) = Ok [].
Proof.
  intros Hc. unfold _slice_columns.
  destruct (Z.eqb_spec (columns b) 0); [lia|]. f_equal.
  apply nil_length_inv.
  change (foldl ?f ?a (row0 :: rest)) with (foldl f (f a row0) rest).
  rewrite slice_rows_length, slice_row_length, length_replicate. lia.
Qed.

Lemma run_frames_negative (frames : list (list (list Z))) (w : World) :
  columns (self w) < 0 ->
  Forall (fun binary => binary <> []) frames ->
  run_frames frames w = (Ok tt, w).
Proof.
  intros Hc Hne. induction Hne as [|f frames Hf _ IH]; [done|].
  rewrite run_frames_cons, run_frame_unfold.
  destruct f as [|row0 rest]; [done|].
  by rewrite slice_columns_negative.
Qed.

(** With a negative column count [run] goes through every frame that has at
    least one row without an error and without sending a single key event:
    there are no columns. *)
Theorem negative_columns_run_silent (frames : list (list (list Z))) (w : World) :
  columns (self w) < 0 ->
  Forall (fun binary => binary <> []) frames ->
  (run frames w).1 = Ok tt /\
  keys (run frames w).2 = keys w /\
  _col_states (self (run frames w).2) = _col_states (self w).
Proof.
  intros Hc Hne. unfold run, mbind, M_bind, bind, set_inplay.
  by rewrite run_frames_negative.
Qed.

Lemma negative_columns_run_silent_witness :
  (run [[[255; 255; 255]]; [[0; 255; 0]; [255; 255; 255]]]
       (fresh_world (mkBot bbox4 (-2) [] key_codes false))).1 = Ok tt /\
  keys (run [[[255; 255; 255]]; [[0; 255; 0]; [255; 255; 255]]]
            (fresh_world (mkBot bbox4 (-2) [] key_codes false))).2 = [] /\
  _col_states (self (run [[[255; 255; 255]]; [[0; 255; 0]; [255; 255; 255]]]
                         (fresh_world (mkBot bbox4 (-2) [] key_codes false))).2)
  = [].
Proof.
  apply (negative_columns_run_silent
           [[[255; 255; 255]]; [[0; 255; 0]; [255; 255; 255]]]
           (fresh_world (mkBot bbox4 (-2) [] key_codes false))).
  - reflexivity.
  - repeat constructor; discriminate.
Defined.

Lemma slice_columns_only_columns (b b' : OsuManiaBot) (screen : list (list Z)) :
  columns b = columns b' -> _slice_columns b screen = _slice_columns b' screen.
Proof. intros E. unfold _slice_columns. by rewrite E. Qed.

Lemma run_frame_consistent (binary : list (list Z)) (w : World) :
  consistent w -> consistent (run_frame binary w).2.
Proof.
  intros Hw. rewrite run_frame_unfold.
  destruct (_slice_columns (self w) binary) as [cols|e]; [|done].
  by apply handle_press_consistent.
Qed.

Lemma run_frames_consistent (frames : list (list (list Z))) (w : World) :
  consistent w -> consistent (run_frames frames w).2.
Proof.
  revert w. induction frames as [|f frames IH]; intros w Hw; [done|].
  rewrite run_frames_cons.
  pose proof (run_frame_consistent f w Hw) as Hf.
  destruct (run_frame f w) as [[[]|e] w1]; simpl in Hf; [by apply IH|done].
Qed.

Lemma alternates_held_last (held : bool) (tr : list Action) :
  alternates held tr = Some true ->
  (tr = [] /\ held = true) \/ exists tr' c, tr = tr' ++ [Press c].
Proof.
  revert held. induction tr as [|a tr IH]; intros held Halt.
  { left. by injection Halt as ->. }
  right. destruct a as [c|c]; simpl in Halt.
  - destruct held; [done|].
    destruct (IH true Halt) as [[-> _]|(tr' & c' & ->)].
    + by exists [], c.
    + by exists (Press c :: tr'), c'.
  - destruct held; [|done].
    destruct (IH false Halt) as [[_ ?]|(tr' & c' & ->)]; [done|].
    by exists (Release c :: tr'), c'.
Qed.

(** [run] never releases a key when it stops. If the loop ends after a frame
    in which column [i] is lit, the last event sent for the key of column [i]
    is a [Press]: the key is left held. *)
Theorem run_key_held_at_exit (bbox : Z * Z * Z * Z) (count : Z) (b : OsuManiaBot)
        (frames : list (list (list Z))) (last : list (list Z)) (w' : World)
        (cols : list (list Z)) (col : list Z) (i : nat) (code : Z) :
  __init__ bbox count = Ok b ->
  run (frames ++ [last]) (fresh_world b) = (Ok tt, w') ->
  _slice_columns b last = Ok cols ->
  cols !! i = Some col ->
  np_all col = true ->
  key_codes !! i = Some code ->
  exists before, column_actions code (keys w') = before ++ [Press code].
Proof.
  intros [= <-] Hrun Hcols Hcol Hlit Hcode.
  unfold run, mbind, M_bind, bind, set_inplay in Hrun. simpl in Hrun.
  set (w0 := mkWorld (mkBot bbox count (_initialize_states count) key_codes true) [])
    in Hrun.
  assert (Hw0 : consistent w0).
  { split; [done|]. intros j. unfold column_events. simpl.
    assert (default false (_initialize_states count !! j) = false) as ->.
    { unfold _initialize_states.
      destruct (replicate (Z.to_nat count) false !! j) as [v|] eqn:Hv; [|done].
      by apply lookup_replicate_1 in Hv as [-> _]. }
    by destruct (key_codes !! j). }
  assert (Hw' : consistent w').
  { replace w' with (run_frames (frames ++ [last]) w0).2 by (by rewrite Hrun).
    by apply run_frames_consistent. }
  rewrite run_frames_app in Hrun.
  pose proof (run_frames_settings frames w0) as (_ & Hc & _).
  destruct (run_frames frames w0) as [[[]|e] w1]; [|done].
  rewrite run_frames_cons, run_frame_unfold in Hrun. simpl in Hc.
  rewrite (slice_columns_only_columns (self w1)
             (mkBot bbox count (_initialize_states count) key_codes false))
    in Hrun by done.
  rewrite Hcols in Hrun.
  destruct (_handle_press cols w1) as [[[]|e] w2] eqn:Hpress; [|done].
  simpl in Hrun. injection Hrun as ->.
  pose proof (handle_press_from_mirror cols 0 w1 w' Hpress i col Hcol) as Hst.
  destruct Hw' as [_ Hinv]. specialize (Hinv i).
  unfold column_events in Hinv. simpl in Hst.
  rewrite Hcode, Hst, Hlit in Hinv. simpl in Hinv.
  apply alternates_held_last in Hinv as [[_ ?]|(before & c & Hbefore)]; [done|].
  assert (Hin : Press c ∈ column_actions code (keys w')).
  { rewrite Hbefore. apply elem_of_app. right. left. }
  unfold column_actions in Hin. apply list_elem_of_filter in Hin as [Hc' _].
  simpl in Hc'. subst c. by exists before.
Qed.

Lemma run_key_held_at_exit_witness :
  exists before,
    column_actions 0x03 [Press 0x02; Press 0x03; Release 0x02; Release 0x03; Press 0x03]
    = before ++ [Press 0x03].
Proof.
  apply (run_key_held_at_exit bbox4 2
           (mkBot bbox4 2 [false; false] key_codes false)
           [[[255; 255; 255; 255]]; [[0; 0; 0; 0]]] [[0; 0; 255; 255]]
           (mkWorld (mkBot bbox4 2 [false; true] key_codes true)
              [Press 0x02; Press 0x03; Release 0x02; Release 0x03; Press 0x03])
           [[0; 0]; [255; 255]] [255; 255] 1 0x03); reflexivity.
Defined.

Lemma slice_columns_ok_length (b : OsuManiaBot) (screen cols : list (list Z)) :
  _slice_columns b screen = Ok cols -> length cols = Z.to_nat (columns b).
Proof.
  unfold _slice_columns. destruct screen as [|row0 rest]; [done|].
  destruct (columns b =? 0); [done|]. intros Hok.
  match type of Hok with Ok ?t = _ => assert (E : t = cols) by congruence end.
  rewrite <- E.
  by rewrite slice_rows_length, length_replicate.
Qed.

Lemma run_frames_ok (frames : list (list (list Z))) (w : World) :
  _codes (self w) = key_codes ->
  columns (self w) <> 0 -> columns (self w) <= 10 ->
  length (_col_states (self w)) = Z.to_nat (columns (self w)) ->
  Forall (fun binary => binary <> []) frames ->
  (run_frames frames w).1 = Ok tt.
Proof.
  intros Hcodes Hc0 Hc10 Hlen Hne. revert w Hcodes Hc0 Hc10 Hlen.
  induction Hne as [|f frames Hf _ IH]; intros w Hcodes Hc0 Hc10 Hlen; [done|].
  rewrite run_frames_cons, run_frame_unfold.
  destruct (_slice_columns (self w) f) as [cols|e] eqn:Hcols.
  2:{ unfold _slice_columns in Hcols. destruct f as [|row0 rest]; [done|].
      destruct (Z.eqb_spec (columns (self w)) 0); done. }
  pose proof (slice_columns_ok_length _ _ _ Hcols) as Hclen.
  pose proof (handle_press_from_settings cols 0 w) as (_ & Hcol' & _ & Hlen').
  pose proof (handle_press_from_codes cols 0 w) as Hcodes'.
  assert (Hok : exists w1, handle_press_from 0 cols w = (Ok tt, w1)).
  { eexists. apply handle_press_from_ok.
    - simpl. lia.
    - intros j c h Hj _ _. rewrite Hcodes. apply key_codes_lookup_lt.
      apply lookup_lt_Some in Hj. lia. }
  destruct Hok as [w1 Hok].
  unfold _handle_press. rewrite Hok in Hcol', Hlen', Hcodes' |- *.
  simpl in Hcol', Hlen', Hcodes'. apply IH; congruence.
Qed.

(** A bot constructed with a column count that is not zero and at most ten
    never raises in [run], whatever the frames hold, as long as each frame
    has at least one row: rows of different lengths, frames narrower than the
    column count and negative counts included. *)
Theorem run_never_raises (bbox : Z * Z * Z * Z) (count : Z) (b : OsuManiaBot)
        (frames : list (list (list Z))) :
  __init__ bbox count = Ok b ->
  count <> 0 -> count <= 10 ->
  Forall (fun binary => binary <> []) frames ->
  (run frames (fresh_world b)).1 = Ok tt.
Proof.
  intros [= <-] Hc0 Hc10 Hne.
  unfold run, mbind, M_bind, bind, set_inplay. simpl.
  apply run_frames_ok; simpl; try done.
  unfold _initialize_states. by rewrite length_replicate.
Qed.

Lemma run_never_raises_witness :
  (run [[[255; 0; 255; 255; 0; 9; 0]; [255; 255]; []]; [[0]]; [[1; 1; 1; 1; 1; 1; 1; 1]]]
       (fresh_world (mkBot bbox7 7 (replicate 7 false) key_codes false))).1
  = Ok tt.
Proof.
  apply (run_never_raises bbox7 7 (mkBot bbox7 7 (replicate 7 false) key_codes false)
           [[[255; 0; 255; 255; 0; 9; 0]; [255; 255]; []]; [[0]];
            [[1; 1; 1; 1; 1; 1; 1; 1]]]).
  - reflexivity.
  - lia.
  - lia.
  - repeat constructor; discriminate.
Defined.

Lemma slice_columns_narrow (b : OsuManiaBot) (row0 : list Z) (rest : list (list Z)) :
  1 <= columns b -> Z.of_nat (length row0) < columns b ->
  _slice_columns b (row0 :: rest) = Ok (replicate (Z.to_nat (columns b)) []).
Proof.
  intros Hc Hlen. unfold _slice_columns.
  destruct (Z.eqb_spec (columns b) 0); [lia|].
  rewrite Z.div_small by lia. change (tolerance_of 0) with 0.
  f_equal. apply list_eq. intros i. rewrite slice_rows_lookup.
  destruct (replicate (Z.to_nat (columns b)) [] !! i) as [c|] eqn:Hi; [|done].
  apply lookup_replicate_1 in Hi as [-> _]. simpl. f_equal.
  replace (Z.of_nat i * 0 + 0) with 0 by lia.
  replace ((Z.of_nat i + 1) * 0 - 0) with 0 by lia.
  assert (Hnil : forall row : list Z, py_slice row 0 0 = []).
  { intros row. unfold py_slice, slice_bound. simpl.
    rewrite Z.min_l by lia. done. }
  rewrite Hnil. simpl.
  induction rest as [|row rest' IH]; simpl; [done|]. by rewrite Hnil.
Qed.

(** A frame narrower than the column count lights every column whatever its
    pixels are: on the bot as constructed with one to ten columns, the first
    such frame presses the key of every column, in column order. *)
Theorem narrow_frame_presses_every_key (bbox : Z * Z * Z * Z) (count : Z)
        (b : OsuManiaBot) (row0 : list Z) (rest : list (list Z)) :
  __init__ bbox count = Ok b ->
  1 <= count <= 10 ->
  Z.of_nat (length row0) < count ->
  run_frame (row0 :: rest) (fresh_world b)
  = (Ok tt,
     mkWorld (mkBot bbox count (replicate (Z.to_nat count) true) key_codes false)
             (Press <$> take (Z.to_nat count)
                          [0x02; 0x03; 0x04; 0x05; 0x06; 0x07; 0x08; 0x09; 0x10; 0x11])).
Proof.
  intros [= <-] Hc Hlen.
  rewrite run_frame_unfold. simpl self.
  rewrite slice_columns_narrow by (simpl; lia). simpl columns.
  assert (count = 1 \/ count = 2 \/ count = 3 \/ count = 4 \/ count = 5 \/
          count = 6 \/ count = 7 \/ count = 8 \/ count = 9 \/ count = 10)
    as Hcases by lia.
  repeat (destruct Hcases as [->|Hcases]; [reflexivity|]).
  subst count. reflexivity.
Qed.

Lemma narrow_frame_presses_every_key_witness :
  run_frame [[0; 0; 0]; [0; 0; 0]]
    (fresh_world (mkBot bbox4 4 [false; false; false; false] key_codes false))
  = (Ok tt,
     mkWorld (mkBot bbox4 4 [true; true; true; true] key_codes false)
             [Press 0x02; Press 0x03; Press 0x04; Press 0x05]).
Proof.
  apply (narrow_frame_presses_every_key bbox4 4
           (mkBot bbox4 4 [false; false; false; false] key_codes false)
           [0; 0; 0] [[0; 0; 0]]).
  - reflexivity.
  - lia.
  - simpl. lia.
Defined.

Lemma run_frames_trace (frames : list (list (list Z))) (w : World) :
  exists added,
    keys (run_frames frames w).2 = keys w ++ added /\
    forall a, a ∈ added ->
      exists i : nat, Z.of_nat i < columns (self w) /\
        _codes (self w) !! i = Some (action_code a).
Proof.
  revert w. induction frames as [|f frames IH]; intros w.
  { exists []. simpl. rewrite app_nil_r. split; [done|].
    by intros a ?%not_elem_of_nil. }
  rewrite run_frames_cons.
  pose proof (run_frame_settings f w) as (_ & Hcol & Hcodes & _).
  assert (Hf : exists added,
             keys (run_frame f w).2 = keys w ++ added /\
             forall a, a ∈ added ->
               exists i : nat, Z.of_nat i < columns (self w) /\
                 _codes (self w) !! i = Some (action_code a)).
  { rewrite run_frame_unfold.
    destruct (_slice_columns (self w) f) as [cols|e] eqn:Hcols.
    - pose proof (slice_columns_ok_length _ _ _ Hcols) as Hlen.
      destruct (handle_press_from_trace cols 0 w) as (added & Hk & _ & Hc).
      exists added. split; [done|]. intros a Ha.
      destruct (Hc a Ha) as (i & Hi & Hci). exists i. split; [lia|done].
    - exists []. simpl. rewrite app_nil_r. split; [done|].
      by intros a ?%not_elem_of_nil. }
  destruct Hf as (added1 & Hk1 & Hc1).
  destruct (run_frame f w) as [[[]|e] w1]; simpl in *.
  - destruct (IH w1) as (added2 & Hk2 & Hc2).
    exists (added1 ++ added2). split; [by rewrite Hk2, Hk1, app_assoc|].
    intros a [Ha|Ha]%elem_of_app; [by apply Hc1|].
    destruct (Hc2 a Ha) as (i & Hi & Hci). exists i. split; congruence.
  - exists added1. split; [done|]. exact Hc1.
Qed.

(** [run] only ever sends the keys of the table of [__init__], and only those
    of column indices below the column count, however it ends. *)
Theorem run_sends_only_column_keys (bbox : Z * Z * Z * Z) (count : Z)
        (b : OsuManiaBot) (frames : list (list (list Z))) (a : Action) :
  __init__ bbox count = Ok b ->
  a ∈ keys (run frames (fresh_world b)).2 ->
  exists i : nat,
    Z.of_nat i < count /\ (i < 10)%nat /\ key_codes !! i = Some (action_code a).
Proof.
  intros [= <-] Ha.
  unfold run, mbind, M_bind, bind, set_inplay in Ha. simpl in Ha.
  match type of Ha with context [run_frames frames ?w0] =>
    destruct (run_frames_trace frames w0) as (added & Hk & Hc) end.
  rewrite Hk in Ha. simpl in Ha, Hc.
  destruct (Hc a Ha) as (i & Hi & Hci).
  exists i. split; [done|]. split; [|done]. by eapply key_codes_lookup_Some.
Qed.

Lemma run_sends_only_column_keys_witness :
  exists i : nat,
    Z.of_nat i < 12 /\ (i < 10)%nat /\ key_codes !! i = Some (action_code (Press 0x11)).
Proof.
  apply (run_sends_only_column_keys bbox7 12
           (mkBot bbox7 12 (replicate 12 false) key_codes false)
           [[replicate 120 255]] (Press 0x11)).
  - reflexivity.
  - vm_compute. do 9 right. left.
Defined.
